(** * InstantSearch connectors: numeric refinement list, breadcrumb, pagination

    A shallow embedding of three connectors of instantsearch.js
    ([connectNumericRefinementList], [connectBreadcrumb],
    [connectPagination]) and the properties of their refinement logic.

    JavaScript numbers that occur here (option bounds, pages, hit counts)
    are integral and are represented by [Z]; option names, attribute names
    and operators are strings; an object used as a dictionary is a [gmap];
    a property that may be [undefined] is an [option]. *)

From Stdlib Require Import ZArith List Bool.
From stdpp Require Import base decidable option gmap strings list fin_maps.
Import ListNotations.

Set Warnings "-clear-no-such-hyp".

Local Open Scope string_scope.
Local Open Scope list_scope.
Local Open Scope Z_scope.

(** ** JavaScript exceptions and a small effect monad *)

Module Js.

(** The two kinds of exception the connectors can raise: a [TypeError]
    of the engine (a property read on [undefined]/[null], a call of a
    value that is not a function) and an explicit [throw new Error(msg)]. *)
Inductive exn : Type :=
| TypeError (msg : string)
| Error (msg : string).

(** Outcome of a call: normal completion or an exception. *)
Inductive result (A : Type) : Type :=
| Ok (a : A)
| Throw (e : exn).
Arguments Ok {A} a.
Arguments Throw {A} e.

(** A computation over a mutable world [W]: the world reached is
    returned on both outcomes, since an exception does not roll back
    what happened before it. *)
Definition M (W A : Type) : Type := W -> W * result A.

Definition ret {W A} (a : A) : M W A := fun w => (w, Ok a).

Definition throw {W A} (e : exn) : M W A := fun w => (w, Throw e).

Definition bind {W A B} (c : M W A) (k : A -> M W B) : M W B :=
  fun w =>
    match c w with
    | (w', Ok a) => k a w'
    | (w', Throw e) => (w', Throw e)
    end.

Definition get {W} : M W W := fun w => (w, Ok w).

Definition modify {W} (f : W -> W) : M W unit := fun w => (f w, Ok tt).

(** Lift a pure, possibly throwing, computation. *)
Definition lift {W A} (r : result A) : M W A := fun w => (w, r).

End Js.

Declare Scope js_scope.
Delimit Scope js_scope with js.
Notation "x <- c1 ;; c2" := (Js.bind c1 (fun x => c2))
  (at level 100, c1 at next level, right associativity) : js_scope.
Notation "c1 ;; c2" := (Js.bind c1 (fun _ => c2))
  (at level 100, right associativity) : js_scope.

Import Js.

(** ** The search state collaborator *)

Module SearchParameters.

(** Configuration entry of one hierarchical facet, as pushed by
    [getConfiguration] of the breadcrumb connector. *)
Record HierarchicalFacet : Type := {
  hf_name : string;
  hf_attributes : list string;
  hf_separator : string;
  hf_rootPath : option string;
}.

(** Modelled from the spec: the search state object and its mutation
    methods belong to the search helper library and are not part of the
    sources; sections 3 and 6 of the specification give the contract
    used here.  Numeric refinements are held per attribute name as a
    mapping from operator to a set of numbers; every mutation method
    returns a new snapshot.  [hierarchicalFacets] and [page] are the
    two other fields the connectors read. *)
Record t : Type := {
  numericRefinements : gmap string (gmap string (gset Z));
  hierarchicalFacets : option (list HierarchicalFacet);
  page : option Z;
}.

Definition set_numericRefinements (s : t)
    (nr : gmap string (gmap string (gset Z))) : t :=
  {| numericRefinements := nr;
     hierarchicalFacets := hierarchicalFacets s;
     page := page s |}.

(** Modelled from the spec: [getNumericRefinements(attributeName)]
    returns the mapping operator -> set of numbers of the attribute,
    the empty mapping when the attribute has no refinement. *)
Definition getNumericRefinements (s : t) (attribute : string)
    : gmap string (gset Z) :=
  default ∅ (numericRefinements s !! attribute).

(** Modelled from the spec: whether [operator value] is an active
    refinement of [attribute]. *)
Definition isNumericRefined (s : t) (attribute operator : string) (value : Z)
    : bool :=
  match getNumericRefinements s attribute !! operator with
  | Some vs => bool_decide (value ∈ vs)
  | None => false
  end.

(** Modelled from the spec: [clearRefinements(attributeName)] returns a
    snapshot with zero refinements for the attribute. *)
Definition clearRefinements (s : t) (attribute : string) : t :=
  set_numericRefinements s (delete attribute (numericRefinements s)).

(** Modelled from the spec: [addNumericRefinement] returns a snapshot
    in which [value] is a member of the operator's set; adding a value
    that is already there leaves the snapshot as it is. *)
Definition addNumericRefinement (s : t) (attribute operator : string)
    (value : Z) : t :=
  if isNumericRefined s attribute operator value then s
  else
    let ops := getNumericRefinements s attribute in
    let vs := default ∅ (ops !! operator) in
    set_numericRefinements s
      (<[attribute := <[operator := vs ∪ {[value]}]> ops]>
         (numericRefinements s)).

(** Modelled from the spec: [removeNumericRefinement] returns a
    snapshot in which [value] is no longer a member of the operator's
    set; removing a value that is not there leaves the snapshot as it
    is.  An operator left without value and an attribute left without
    operator are dropped from the mapping, so that "zero refinements of
    any operator" is an empty mapping (section 4.1, rule 4). *)
Definition removeNumericRefinement (s : t) (attribute operator : string)
    (value : Z) : t :=
  if negb (isNumericRefined s attribute operator value) then s
  else
    let ops := getNumericRefinements s attribute in
    let vs := default ∅ (ops !! operator) ∖ {[value]} in
    let ops' :=
      if decide (vs = ∅) then delete operator ops
      else <[operator := vs]> ops in
    set_numericRefinements s
      (if decide (ops' = ∅) then delete attribute (numericRefinements s)
       else <[attribute := ops']> (numericRefinements s)).

(** Modelled from the spec: [setPage(n)] returns a snapshot on page [n]. *)
Definition setPage (s : t) (n : Z) : t :=
  {| numericRefinements := numericRefinements s;
     hierarchicalFacets := hierarchicalFacets s;
     page := Some n |}.

Definition empty : t :=
  {| numericRefinements := ∅; hierarchicalFacets := None; page := None |}.

(** [s'] differs from [s] at most in the numeric refinements of
    [attribute]. *)
Definition sameElsewhere (attribute : string) (s s' : t) : Prop :=
  (∀ other, other ≠ attribute →
     numericRefinements s' !! other = numericRefinements s !! other)
  ∧ hierarchicalFacets s' = hierarchicalFacets s
  ∧ page s' = page s.

End SearchParameters.

(** ** The search helper and the search results *)

Module Helper.

(** Modelled from the spec: the search helper is the mutable accessor
    of the current search state; it is not part of the sources.
    [setState] replaces the state, [search] triggers one execution
    (fire and forget, counted here), [setPage] and [getPage] act on the
    page of the current state. *)
Record t : Type := {
  state : SearchParameters.t;
  searches : nat;
}.

Definition setState (s : SearchParameters.t) (h : t) : t :=
  {| state := s; searches := searches h |}.

Definition search (h : t) : t :=
  {| state := state h; searches := S (searches h) |}.

Definition setPage (n : Z) (h : t) : t :=
  setState (SearchParameters.setPage (state h) n) h.

Definition getPage (h : t) : option Z := SearchParameters.page (state h).

End Helper.

Module SearchResults.

(** One node of a hierarchical facet tree, with the four properties
    [prepareItems] reads: [path] is [null] at the root, [data] is the
    array of child nodes or [null] when the node has none. *)
#[warnings="-register-all"]
Inductive FacetValue : Type := mkFacetValue {
  name : string;
  path : option string;
  isRefined : bool;
  data : option (list FacetValue);
}.

(** Modelled from the spec: the result object belongs to the search
    helper library; section 6 of the specification lists what the
    connectors read: [nbHits], [nbPages] and [getFacetValues(name)],
    which is [undefined] for a facet the results do not know. *)
Record t : Type := {
  nbHits : Z;
  nbPages : Z;
  getFacetValues : string -> option FacetValue;
}.

End SearchResults.

(** ** The connector contract *)

Module Connector.

(** What a connector can touch while [init] or [render] runs: its own
    instance fields ([this]) and the injected render callback, of which
    the invocations are recorded in order, each with its payload and its
    [isFirstRendering] flag. *)
Record World (This Payload : Type) : Type := {
  this : This;
  calls : list (Payload * bool);
}.
Arguments this {This Payload} w.
Arguments calls {This Payload} w.

Definition fresh {This Payload} (t0 : This) : World This Payload :=
  {| this := t0; calls := [] |}.

(** [this.field = value] *)
Definition assign {This Payload} (f : This -> This)
    : M (World This Payload) unit :=
  modify (fun w => {| this := f (this w); calls := calls w |}).

(** [renderFn(payload, isFirstRendering)] *)
Definition renderFn {This Payload} (payload : Payload)
    (isFirstRendering : bool) : M (World This Payload) unit :=
  modify (fun w =>
    {| this := this w; calls := calls w ++ [(payload, isFirstRendering)] |}).

(** A recorded invocation that is not flagged as the first rendering. *)
Definition notFirst {Payload} (c : Payload * bool) : Prop := snd c = false.

Fixpoint renders {W R} (render : R -> M W unit) (completed : list R)
    : M W unit :=
  match completed with
  | [] => ret tt
  | r :: rest => (render r ;; renders render rest)%js
  end.

(** Modelled from the spec: the framework that drives a widget is not
    part of the sources; section 3 of the specification gives the
    lifecycle: [init] runs once before the first search completes,
    [render] runs once per completed search thereafter. *)
Definition lifecycle {W R} (init : M W unit) (render : R -> M W unit)
    (completed : list R) : M W unit :=
  (init ;; renders render completed)%js.

End Connector.

(** ** connectNumericRefinementList: predicate and toggler *)

Module NumericRefinementList.
Import SearchParameters.

(** One entry of [widgetParams.options]; [end] is a keyword of the
    language, hence [end_]. *)
Record NumericOption : Type := {
  name : string;
  start : option Z;
  end_ : option Z;
}.

(** lodash [find(options, {name: facetValue})]: the first option whose
    [name] equals [facetValue], [undefined] when there is none. *)
Definition find (options : list NumericOption) (facetValue : string)
    : option NumericOption :=
  List.find (fun o => String.eqb (name o) facetValue) options.

(** lodash [includes(collection, value)]; [false] on [undefined]. *)
Definition includes (collection : option (gset Z)) (value : Z) : bool :=
  match collection with
  | Some vs => bool_decide (value ∈ vs)
  | None => false
  end.

Definition hasNumericRefinement (currentRefinements : gmap string (gset Z))
    (operator : string) (value : Z) : bool :=
  let hasOperatorRefinements :=
    bool_decide (currentRefinements !! operator ≠ None) in
  let includesValue := includes (currentRefinements !! operator) value in
  hasOperatorRefinements && includesValue.

(** The four tests of the source are taken in order; its final
    [return undefined] is unreachable, one of them always applies. *)
Definition isRefined (state : t) (attributeName : string)
    (option : NumericOption) : bool :=
  let currentRefinements := getNumericRefinements state attributeName in
  match start option, end_ option with
  | Some s, Some e =>
      if Z.eqb s e then hasNumericRefinement currentRefinements "=" s
      else hasNumericRefinement currentRefinements ">=" s
  | Some s, None => hasNumericRefinement currentRefinements ">=" s
  | None, Some e => hasNumericRefinement currentRefinements "<=" e
  | None, None => Nat.eqb (size currentRefinements) 0
  end.

(** [refine]: the next state snapshot for a click on the option named
    [facetValue].  [find] yields [undefined] for an unknown name and the
    first property read on it raises a [TypeError].  The block on two
    defined bounds either leaves the function (a [throw] or a [return])
    or falls through to the two independent toggles; all tests of
    presence use [currentRefinements], read from the incoming state
    before any clearing. *)
Definition refine (state : t) (attributeName : string)
    (options : list NumericOption) (facetValue : string) : result t :=
  let resolvedState := state in
  match find options facetValue with
  | None => Throw (TypeError "Cannot read property 'start' of undefined")
  | Some refinedOption =>
    let currentRefinements :=
      getNumericRefinements resolvedState attributeName in
    if bool_decide (start refinedOption = None)
       && bool_decide (end_ refinedOption = None)
    then Ok (clearRefinements resolvedState attributeName)
    else
      let resolvedState :=
        if negb (isRefined resolvedState attributeName refinedOption)
        then clearRefinements resolvedState attributeName
        else resolvedState in
      let leaving : option (result t) :=
        match start refinedOption, end_ refinedOption with
        | Some s, Some e =>
            if s >? e
            then Some (Throw (Error "option.start should be > to option.end"))
            else if s =? e
            then Some (Ok
              (if hasNumericRefinement currentRefinements "=" s
               then removeNumericRefinement resolvedState attributeName "=" s
               else addNumericRefinement resolvedState attributeName "=" s))
            else None
        | _, _ => None
        end in
      match leaving with
      | Some r => r
      | None =>
        let resolvedState :=
          match start refinedOption with
          | Some s =>
              if hasNumericRefinement currentRefinements ">=" s
              then removeNumericRefinement resolvedState attributeName ">=" s
              else addNumericRefinement resolvedState attributeName ">=" s
          | None => resolvedState
          end in
        let resolvedState :=
          match end_ refinedOption with
          | Some e =>
              if hasNumericRefinement currentRefinements "<=" e
              then removeNumericRefinement resolvedState attributeName "<=" e
              else addNumericRefinement resolvedState attributeName "<=" e
          | None => resolvedState
          end in
        Ok resolvedState
      end
  end.

(** The refinements an option stands for, as pairs of an operator and
    a value, following the operators [refine] uses for each shape of
    option. *)
Definition constraints (option : NumericOption) : list (string * Z) :=
  match start option, end_ option with
  | Some s, Some e =>
      if Z.eqb s e then [("=", s)] else [(">=", s); ("<=", e)]
  | Some s, None => [(">=", s)]
  | None, Some e => [("<=", e)]
  | None, None => []
  end.

(** *** The widget *)

Section Widget.

(** [InstantSearch]: the type of the instance handle, passed through. *)
Context {InstantSearch : Type}.

Record WidgetParams : Type := {
  attributeName : string;
  options : list NumericOption;
}.

Variable widgetParams : WidgetParams.

(** An option as rendered: its own fields, [isRefined] and the
    attribute. *)
Record FacetValue : Type := {
  fv_option : NumericOption;
  fv_isRefined : bool;
  fv_attributeName : string;
}.

Record RenderingOptions : Type := {
  createURL : string -> result string;
  facetValues : list FacetValue;
  hasNoResults : bool;
  toggleRefinement : option (string -> M Helper.t unit);
  instantSearchInstance : InstantSearch;
  ro_widgetParams : WidgetParams;
}.

(** The fields [init] stores on the widget; both are [undefined]
    on a widget that was never initialised. *)
Record This : Type := {
  _toggleRefinement : option (string -> M Helper.t unit);
  _createURL :
    option (SearchParameters.t -> string -> result string);
}.

Definition uninitialised : This :=
  {| _toggleRefinement := None; _createURL := None |}.

Record InitOptions : Type := {
  io_helper : Helper.t;
  io_createURL : SearchParameters.t -> string;
  io_instantSearchInstance : InstantSearch;
}.

Record RenderOptions : Type := {
  rd_results : SearchResults.t;
  rd_state : SearchParameters.t;
  rd_instantSearchInstance : InstantSearch;
}.

(** [facetValue => { const refinedState = refine(helper.state, ...);
    helper.setState(refinedState).search(); }]; the helper object is
    read when the closure is called. *)
Definition toggleRefinement_closure (facetValue : string)
    : M Helper.t unit :=
  (helper <- get ;;
   refinedState <-
     lift (refine (Helper.state helper) (attributeName widgetParams)
             (options widgetParams) facetValue) ;;
   modify (Helper.setState refinedState) ;;
   modify Helper.search)%js.

(** [state => facetValue => createURL(refine(state, ...))] *)
Definition createURL_closure (createURL : SearchParameters.t -> string)
    (state : SearchParameters.t) (facetValue : string) : result string :=
  match refine state (attributeName widgetParams)
          (options widgetParams) facetValue with
  | Ok refinedState => Ok (createURL refinedState)
  | Throw e => Throw e
  end.

Definition facetValuesOf (state : SearchParameters.t) : list FacetValue :=
  map (fun facetValue =>
         {| fv_option := facetValue;
            fv_isRefined :=
              isRefined state (attributeName widgetParams) facetValue;
            fv_attributeName := attributeName widgetParams |})
      (options widgetParams).

(** A call of [this._createURL] when the field is [undefined]. *)
Definition call_createURL {W}
    (f : option (SearchParameters.t -> string -> result string))
    (state : SearchParameters.t) : M W (string -> result string) :=
  match f with
  | Some g => ret (g state)
  | None => throw (TypeError "this._createURL is not a function")
  end.

Definition init (o : InitOptions)
    : M (Connector.World This RenderingOptions) unit :=
  (Connector.assign (fun t =>
     {| _toggleRefinement := Some toggleRefinement_closure;
        _createURL := _createURL t |}) ;;
   Connector.assign (fun t =>
     {| _toggleRefinement := _toggleRefinement t;
        _createURL := Some (createURL_closure (io_createURL o)) |}) ;;
   let facetValues := facetValuesOf (Helper.state (io_helper o)) in
   w <- get ;;
   url <- call_createURL (_createURL (Connector.this w))
            (Helper.state (io_helper o)) ;;
   Connector.renderFn
     {| createURL := url;
        facetValues := facetValues;
        hasNoResults := true;
        toggleRefinement := _toggleRefinement (Connector.this w);
        instantSearchInstance := io_instantSearchInstance o;
        ro_widgetParams := widgetParams |}
     true)%js.

Definition render (o : RenderOptions)
    : M (Connector.World This RenderingOptions) unit :=
  (let facetValues := facetValuesOf (rd_state o) in
   w <- get ;;
   url <- call_createURL (_createURL (Connector.this w)) (rd_state o) ;;
   Connector.renderFn
     {| createURL := url;
        facetValues := facetValues;
        hasNoResults :=
          Z.eqb (SearchResults.nbHits (rd_results o)) 0;
        toggleRefinement := _toggleRefinement (Connector.this w);
        instantSearchInstance := rd_instantSearchInstance o;
        ro_widgetParams := widgetParams |}
     false)%js.

(** What one invocation of the render callback shows, the closures
    left out: the rendered options, [hasNoResults] and the flag. *)
Definition report (call : RenderingOptions * bool)
    : list FacetValue * bool * bool :=
  (facetValues (fst call), hasNoResults (fst call), snd call).

End Widget.

End NumericRefinementList.

(** ** connectBreadcrumb *)

Module Breadcrumb.
Import SearchResults.

Definition usage : string :=
"Usage:
var customBreadcrumb = connectBreadcrumb(function renderFn(params, isFirstRendering) {
  // params = {
  //   createURL,  
  //   instantSearchInstance,
  //   items,
  //   refine,
  //   widgetParams,
  // }
});
search.addWidget(
  customBreadcrumb({
    attributes,
    [ rootPath = null ],
  })
);
Full documentation available at https://community.algolia.com/instantsearch.js/connectors/connectBreadcrumb.html
".

Record BreadcrumbItem : Type := {
  item_name : string;
  item_value : option string;
}.

(** [Array.isArray(currentItem.data)] *)
Definition isArray {A} (d : option (list A)) : bool :=
  match d with Some _ => true | None => false end.

(** The arrow function given to [reduce]; [prepareItems] is the
    function being defined, called on a refined child that has an array
    of children.  The accumulator carries an exception once one was
    raised. *)
Definition reducer (prepareItems : FacetValue -> result (list BreadcrumbItem))
    (acc : result (list BreadcrumbItem)) (currentItem : FacetValue)
    : result (list BreadcrumbItem) :=
  match acc with
  | Throw e => Throw e
  | Ok result =>
      if isRefined currentItem then
        let result :=
          result ++ [ {| item_name := name currentItem;
                         item_value := path currentItem |} ] in
        if isArray (data currentItem) then
          match prepareItems currentItem with
          | Ok children => Ok (result ++ children)
          | Throw e => Throw e
          end
        else Ok result
      else Ok result
  end.

(** [obj.data.reduce(reducer, [])]: reading [reduce] on a [data] that
    is [null] raises a [TypeError]. *)
Fixpoint prepareItems (obj : FacetValue) : result (list BreadcrumbItem) :=
  match obj with
  | mkFacetValue _ _ _ None =>
      Throw (TypeError "Cannot read property 'reduce' of null")
  | mkFacetValue _ _ _ (Some children) =>
      fold_left (reducer prepareItems) children (Ok [])
  end.

(** The traversal as section 4.4 of the specification words it, for
    comparison with [prepareItems]: a child is in the output only if it
    is marked refined, and the flattened output of its own children
    comes right after it. *)
Fixpoint refinedPath (child : FacetValue) : list BreadcrumbItem :=
  match child with
  | mkFacetValue n p refined d =>
      if refined then
        {| item_name := n; item_value := p |}
        :: match d with
           | Some nested => flat_map refinedPath nested
           | None => []
           end
      else []
  end.

Definition flatten (children : list FacetValue) : list BreadcrumbItem :=
  flat_map refinedPath children.

Section Widget.

Context {InstantSearch : Type}.

Record WidgetParams : Type := {
  attributes : list string;
  separator : option string;
  rootPath : option string;
}.

Variable widgetParams : WidgetParams.

(** [const [hierarchicalFacetName] = attributes] *)
Definition hierarchicalFacetName : option string :=
  head (attributes widgetParams).

(** Three methods of the helper library the closures call; they are
    taken as parameters: [helper.getHierarchicalFacetBreadcrumb], the
    refined path of a hierarchical facet; [helper.state.toggleRefinement],
    the method of the state, which returns the state with one facet
    value toggled; and [helper.toggleRefinement], the method of the
    helper itself, which returns the helper after its own toggle.  The
    last two are different methods and nothing is assumed to relate
    them. *)
Variable getHierarchicalFacetBreadcrumb :
  Helper.t -> option string -> list string.
Variable toggleRefinement :
  SearchParameters.t -> option string -> string -> SearchParameters.t.
Variable helper_toggleRefinement :
  Helper.t -> option string -> string -> Helper.t.

(** [!facetValue]: [undefined], [null] and the empty string. *)
Definition falsy (facetValue : option string) : bool :=
  match facetValue with
  | None => true
  | Some v => String.eqb v ""
  end.

Record RenderingOptions : Type := {
  createURL : option (option string -> Helper.t -> option string);
  canRefine : bool;
  instantSearchInstance : InstantSearch;
  items : list BreadcrumbItem;
  refine : option (option string -> M Helper.t unit);
  ro_widgetParams : WidgetParams;
}.

Record This : Type := {
  _createURL : option (option string -> Helper.t -> option string);
  _refine : option (option string -> M Helper.t unit);
}.

Definition uninitialised : This :=
  {| _createURL := None; _refine := None |}.

Record InitOptions : Type := {
  io_createURL : SearchParameters.t -> string;
  io_helper : Helper.t;
  io_instantSearchInstance : InstantSearch;
}.

Record RenderOptions : Type := {
  rd_instantSearchInstance : InstantSearch;
  rd_results : SearchResults.t;
  rd_state : SearchParameters.t;
}.

(** [this._createURL]; the helper object is read when the closure
    is called, the result is [undefined] when there is nothing to
    toggle. *)
Definition createURL_closure (createURL : SearchParameters.t -> string)
    (facetValue : option string) (helper : Helper.t) : option string :=
  if falsy facetValue then
    let breadcrumb :=
      getHierarchicalFacetBreadcrumb helper hierarchicalFacetName in
    match breadcrumb with
    | first :: _ =>
        Some (createURL
                (toggleRefinement (Helper.state helper)
                   hierarchicalFacetName first))
    | [] => None
    end
  else
    Some (createURL
            (toggleRefinement (Helper.state helper) hierarchicalFacetName
               (default "" facetValue))).

(** [helper.toggleRefinement(name, value).search()] *)
Definition helper_toggle_search (value : string) : M Helper.t unit :=
  (modify (fun h => helper_toggleRefinement h hierarchicalFacetName value) ;;
   modify Helper.search)%js.

(** [this._refine] *)
Definition refine_closure (facetValue : option string)
    : M Helper.t unit :=
  if falsy facetValue then
    (helper <- get ;;
     let breadcrumb :=
       getHierarchicalFacetBreadcrumb helper hierarchicalFacetName in
     match breadcrumb with
     | first :: _ => helper_toggle_search first
     | [] => ret tt
     end)%js
  else helper_toggle_search (default "" facetValue).

Definition init (o : InitOptions)
    : M (Connector.World This RenderingOptions) unit :=
  (Connector.assign (fun t =>
     {| _createURL := Some (createURL_closure (io_createURL o));
        _refine := _refine t |}) ;;
   Connector.assign (fun t =>
     {| _createURL := _createURL t;
        _refine := Some refine_closure |}) ;;
   w <- get ;;
   Connector.renderFn
     {| createURL := _createURL (Connector.this w);
        canRefine := false;
        instantSearchInstance := io_instantSearchInstance o;
        items := [];
        refine := _refine (Connector.this w);
        ro_widgetParams := widgetParams |}
     true)%js.

(** The guard of [render] raises on [!state.hierarchicalFacets] and
    on an array of length 0; past it the first entry gives the name
    of the facet. *)
Definition render (o : RenderOptions)
    : M (Connector.World This RenderingOptions) unit :=
  match SearchParameters.hierarchicalFacets (rd_state o) with
  | None => throw (Error usage)
  | Some [] => throw (Error usage)
  | Some (facet :: _) =>
      let facetName := SearchParameters.hf_name facet in
      (items <-
         match getFacetValues (rd_results o) facetName with
         | Some facetsValues => lift (prepareItems facetsValues)
         | None =>
             throw (TypeError "Cannot read property 'data' of undefined")
         end ;;
       w <- get ;;
       Connector.renderFn
         {| canRefine := Nat.ltb 0 (length items);
            createURL := _createURL (Connector.this w);
            instantSearchInstance := rd_instantSearchInstance o;
            items := items;
            refine := _refine (Connector.this w);
            ro_widgetParams := widgetParams |}
         false)%js
  end.

(** *** The configuration the widget asks for *)

(** One entry of [hierarchicalFacets] in a search configuration; any of
    [name] and [separator] may be [undefined] in an entry written by
    another widget. *)
Record FacetConfiguration : Type := {
  fc_attributes : list string;
  fc_name : option string;
  fc_separator : option string;
  fc_rootPath : option string;
}.

(** A search configuration, as far as [getConfiguration] reads and
    writes it; [{}] is the configuration without [hierarchicalFacets]. *)
Record Configuration : Type := {
  cfg_hierarchicalFacets : option (list FacetConfiguration);
}.

(** [separator = ' > '] in the destructuring of [widgetParams]. *)
Definition separatorOrDefault : string :=
  default " > " (separator widgetParams).

Definition differentOptions : string :=
  "Using Breadcrumb & HierarchicalMenu on the same facet with different options".

(** [console.warn(message)] on a console that records its lines. *)
Definition console_warn (message : string) : M (list string) unit :=
  modify (fun console => console ++ [message]).

(** The entry the widget declares for its own facet. *)
Definition ownFacet : FacetConfiguration :=
  {| fc_attributes := attributes widgetParams;
     fc_name := hierarchicalFacetName;
     fc_separator := Some separatorOrDefault;
     fc_rootPath := rootPath widgetParams |}.

(** [getConfiguration]: lodash [find] yields the first entry whose
    [name] is the name of the facet; [isEqual] on two arrays of strings
    is their equality. *)
Definition getConfiguration (currentConfiguration : Configuration)
    : M (list string) Configuration :=
  let declare : M (list string) Configuration :=
    ret {| cfg_hierarchicalFacets := Some [ownFacet] |} in
  match cfg_hierarchicalFacets currentConfiguration with
  | Some hierarchicalFacets =>
      match List.find
              (fun entry => bool_decide (fc_name entry = hierarchicalFacetName))
              hierarchicalFacets with
      | Some facetSet =>
          ((if negb (bool_decide
                       (fc_attributes facetSet = attributes widgetParams))
               || negb (bool_decide
                          (fc_separator facetSet = Some separatorOrDefault))
            then console_warn differentOptions
            else ret tt) ;;
           ret {| cfg_hierarchicalFacets := None |})%js
      | None => declare
      end
  | None => declare
  end.

End Widget.

End Breadcrumb.

(** ** connectPagination *)

Module Pagination.

Section Widget.

Context {InstantSearch : Type}.

Record WidgetParams : Type := {
  maxPages : option Z;
}.

Variable widgetParams : WidgetParams.

Record RenderingOptions : Type := {
  createURL : Z -> string;
  currentPage : option Z;
  nbHits : Z;
  nbPages : Z;
  setPage : option (Z -> M Helper.t unit);
  ro_widgetParams : WidgetParams;
  instantSearchInstance : InstantSearch;
}.

Record This : Type := {
  this_setPage : option (Z -> M Helper.t unit);
  this_createURL : option (SearchParameters.t -> Z -> string);
}.

Definition uninitialised : This :=
  {| this_setPage := None; this_createURL := None |}.

Record InitOptions : Type := {
  io_helper : Helper.t;
  io_createURL : SearchParameters.t -> string;
  io_instantSearchInstance : InstantSearch;
}.

Record RenderOptions : Type := {
  rd_results : SearchResults.t;
  rd_state : SearchParameters.t;
  rd_instantSearchInstance : InstantSearch;
}.

(** [page => { helper.setPage(page); helper.search(); }] *)
Definition setPage_closure (page : Z) : M Helper.t unit :=
  (modify (Helper.setPage page) ;; modify Helper.search)%js.

(** [state => page => createURL(state.setPage(page))] *)
Definition createURL_closure (createURL : SearchParameters.t -> string)
    (state : SearchParameters.t) (page : Z) : string :=
  createURL (SearchParameters.setPage state page).

(** A call of [this.createURL] when the field is [undefined]. *)
Definition call_createURL {W}
    (f : option (SearchParameters.t -> Z -> string))
    (state : SearchParameters.t) : M W (Z -> string) :=
  match f with
  | Some g => ret (g state)
  | None => throw (TypeError "this.createURL is not a function")
  end.

(** [helper.getPage() || 0] *)
Definition getPage_or_0 (helper : Helper.t) : Z :=
  match Helper.getPage helper with
  | Some p => if Z.eqb p 0 then 0 else p
  | None => 0
  end.

Definition init (o : InitOptions)
    : M (Connector.World This RenderingOptions) unit :=
  (Connector.assign (fun t =>
     {| this_setPage := Some setPage_closure;
        this_createURL := this_createURL t |}) ;;
   Connector.assign (fun t =>
     {| this_setPage := this_setPage t;
        this_createURL := Some (createURL_closure (io_createURL o)) |}) ;;
   w <- get ;;
   url <- call_createURL (this_createURL (Connector.this w))
            (Helper.state (io_helper o)) ;;
   Connector.renderFn
     {| createURL := url;
        currentPage := Some (getPage_or_0 (io_helper o));
        nbHits := 0;
        nbPages := 0;
        setPage := this_setPage (Connector.this w);
        ro_widgetParams := widgetParams;
        instantSearchInstance := io_instantSearchInstance o |}
     true)%js.

Definition getMaxPage (results : SearchResults.t) : Z :=
  match maxPages widgetParams with
  | Some m => Z.min m (SearchResults.nbPages results)
  | None => SearchResults.nbPages results
  end.

Definition render (o : RenderOptions)
    : M (Connector.World This RenderingOptions) unit :=
  (w <- get ;;
   url <- call_createURL (this_createURL (Connector.this w))
            (rd_state o) ;;
   Connector.renderFn
     {| createURL := url;
        currentPage := SearchParameters.page (rd_state o);
        setPage := this_setPage (Connector.this w);
        nbHits := SearchResults.nbHits (rd_results o);
        nbPages := getMaxPage (rd_results o);
        ro_widgetParams := widgetParams;
        instantSearchInstance := rd_instantSearchInstance o |}
     false)%js.

(** What one invocation of the render callback shows, the closures
    left out: [nbHits], [nbPages], [currentPage] and the flag. *)
Definition report (call : RenderingOptions * bool)
    : Z * Z * option Z * bool :=
  (nbHits (fst call), nbPages (fst call), currentPage (fst call), snd call).

End Widget.

End Pagination.

(** ** Sample data *)

Module Sample.
Import SearchParameters NumericRefinementList.

Definition all : NumericOption :=
  {| name := "All"; start := None; end_ := None |}.
Definition exactly5 : NumericOption :=
  {| name := "5"; start := Some 5; end_ := Some 5 |}.
Definition from20to30 : NumericOption :=
  {| name := "20 - 30"; start := Some 20; end_ := Some 30 |}.
Definition upTo30 : NumericOption :=
  {| name := "<= 30"; start := None; end_ := Some 30 |}.
Definition from50to10 : NumericOption :=
  {| name := "50 - 10"; start := Some 50; end_ := Some 10 |}.

Definition catalog : list NumericOption :=
  [all; exactly5; from20to30; upTo30; from50to10].

(** A state whose only refinement is [price >= 10]. *)
Definition atLeast10 : SearchParameters.t :=
  addNumericRefinement SearchParameters.empty "price" ">=" 10.

(** A state whose only refinement is [price <= 30]. *)
Definition atMost30 : SearchParameters.t :=
  addNumericRefinement SearchParameters.empty "price" "<=" 30.

Definition helper : Helper.t :=
  {| Helper.state := atLeast10; Helper.searches := 0 |}.

Definition widgetParams : WidgetParams :=
  {| attributeName := "price"; options := catalog |}.

(** A root with a refined child that has one refined and one unrefined
    grandchild, and an unrefined child. *)
Definition tree : SearchResults.FacetValue :=
  SearchResults.mkFacetValue "categories" None true (Some [
    SearchResults.mkFacetValue "Cameras" (Some "Cameras") true (Some [
      SearchResults.mkFacetValue "Digital" (Some "Cameras > Digital")
        true None;
      SearchResults.mkFacetValue "Film" (Some "Cameras > Film") false None ]);
    SearchResults.mkFacetValue "Audio" (Some "Audio") false None ]).

(** The root of a hierarchical facet for which the results hold no
    value: it has no array of children. *)
Definition bareRoot : SearchResults.FacetValue :=
  SearchResults.mkFacetValue "categories" None true None.

(** A results object that knows the facet [categories] only. *)
Definition results : SearchResults.t :=
  {| SearchResults.nbHits := 42;
     SearchResults.nbPages := 3;
     SearchResults.getFacetValues := fun facet =>
       if String.eqb facet "categories" then Some tree else None |}.

Definition breadcrumbParams : Breadcrumb.WidgetParams :=
  {| Breadcrumb.attributes := ["categories"];
     Breadcrumb.separator := None;
     Breadcrumb.rootPath := None |}.

(** A render context whose state never received the configuration of
    a hierarchical facet. *)
Definition unconfigured : Breadcrumb.RenderOptions (InstantSearch := unit) :=
  {| Breadcrumb.rd_instantSearchInstance := tt;
     Breadcrumb.rd_results := results;
     Breadcrumb.rd_state := atLeast10 |}.

(** A render context whose state holds the hierarchical facet
    [categories]. *)
Definition configuredState : SearchParameters.t :=
  {| SearchParameters.numericRefinements := ∅;
     SearchParameters.hierarchicalFacets :=
       Some [ {| SearchParameters.hf_name := "categories";
                 SearchParameters.hf_attributes := ["categories"];
                 SearchParameters.hf_separator := " > ";
                 SearchParameters.hf_rootPath := None |} ];
     SearchParameters.page := Some 2 |}.

Definition configured : Breadcrumb.RenderOptions (InstantSearch := unit) :=
  {| Breadcrumb.rd_instantSearchInstance := tt;
     Breadcrumb.rd_results := results;
     Breadcrumb.rd_state := configuredState |}.

(** A state that holds [price = 5] and [price >= 10]. *)
Definition exactly5AtLeast10 : SearchParameters.t :=
  addNumericRefinement atLeast10 "price" "=" 5.

Definition paginationParams : Pagination.WidgetParams :=
  {| Pagination.maxPages := Some 2 |}.

Definition paginationInit : Pagination.InitOptions (InstantSearch := unit) :=
  {| Pagination.io_helper := helper;
     Pagination.io_createURL := fun _ => "#";
     Pagination.io_instantSearchInstance := tt |}.

Definition paginationRender
    : Pagination.RenderOptions (InstantSearch := unit) :=
  {| Pagination.rd_results := results;
     Pagination.rd_state := configuredState;
     Pagination.rd_instantSearchInstance := tt |}.

(** A configuration in which a hierarchical menu declared the facet
    [categories] with another separator. *)
Definition menuConfiguration : Breadcrumb.Configuration :=
  {| Breadcrumb.cfg_hierarchicalFacets :=
       Some [ {| Breadcrumb.fc_attributes := ["brand"];
                 Breadcrumb.fc_name := Some "brand";
                 Breadcrumb.fc_separator := Some " > ";
                 Breadcrumb.fc_rootPath := None |};
              {| Breadcrumb.fc_attributes := ["categories"];
                 Breadcrumb.fc_name := Some "categories";
                 Breadcrumb.fc_separator := Some " / ";
                 Breadcrumb.fc_rootPath := None |} ] |}.

End Sample.

(** * Properties *)

(** ** The search state: what the connector observes of a mutation *)

Section SearchParametersFacts.
Import SearchParameters NumericRefinementList.

Implicit Types (s : SearchParameters.t) (a op : string) (v : Z).
Implicit Types (cur : gmap string (gset Z)).

Lemma bool_ext (b1 b2 : bool) : (b1 = true ↔ b2 = true) → b1 = b2.
Proof. destruct b1, b2; intuition congruence. Qed.

Lemma has_iff cur op v :
  hasNumericRefinement cur op v = true ↔
  ∃ vs, cur !! op = Some vs ∧ v ∈ vs.
Proof.
  unfold hasNumericRefinement, includes.
  destruct (cur !! op) as [vs|]; simpl.
  - rewrite bool_decide_eq_true. split.
    + intros Hv. eauto.
    + intros (vs' & [= <-] & Hv). done.
  - split; [done | intros (? & ? & _); done].
Qed.

Lemma has_empty op v : hasNumericRefinement ∅ op v = false.
Proof.
  apply not_true_is_false. rewrite has_iff.
  intros (vs & Hvs & _). by rewrite lookup_empty in Hvs.
Qed.

Lemma isNumericRefined_has s a op v :
  isNumericRefined s a op v =
  hasNumericRefinement (getNumericRefinements s a) op v.
Proof.
  unfold isNumericRefined, hasNumericRefinement, includes.
  by destruct (getNumericRefinements s a !! op).
Qed.

Lemma get_set_insert s a (ops : gmap string (gset Z)) :
  getNumericRefinements
    (set_numericRefinements s (<[a := ops]> (numericRefinements s))) a = ops.
Proof.
  unfold getNumericRefinements. simpl. by rewrite lookup_insert_eq.
Qed.

Lemma get_set_delete s a :
  getNumericRefinements
    (set_numericRefinements s (delete a (numericRefinements s))) a = ∅.
Proof.
  unfold getNumericRefinements. simpl. by rewrite lookup_delete_eq.
Qed.

Lemma get_clear s a :
  getNumericRefinements (clearRefinements s a) a = ∅.
Proof. apply get_set_delete. Qed.

Lemma has_clear s a op v :
  hasNumericRefinement (getNumericRefinements (clearRefinements s a) a) op v
  = false.
Proof. rewrite get_clear. apply has_empty. Qed.

(** After [addNumericRefinement] exactly one more pair is observed. *)
Lemma has_add s a op v op' v' :
  hasNumericRefinement
    (getNumericRefinements (addNumericRefinement s a op v) a) op' v' =
  hasNumericRefinement (getNumericRefinements s a) op' v'
  || (bool_decide (op = op') && bool_decide (v = v')).
Proof.
  unfold addNumericRefinement. rewrite isNumericRefined_has.
  destruct (hasNumericRefinement (getNumericRefinements s a) op v) eqn:Hin.
  - apply bool_ext.
    rewrite orb_true_iff, andb_true_iff, !bool_decide_eq_true.
    split; [tauto | intros [H | [<- <-]]; done].
  - rewrite get_set_insert. apply bool_ext.
    rewrite orb_true_iff, andb_true_iff, !bool_decide_eq_true, !has_iff.
    destruct (decide (op = op')) as [<- | Hne].
    + rewrite lookup_insert_eq. split.
      * intros (vs & [= <-] & Hv). apply elem_of_union in Hv as [Hv | Hv].
        -- left. destruct (getNumericRefinements s a !! op) as [vs0|];
             simpl in Hv; [eauto | set_solver].
        -- right. split; [done | set_solver].
      * intros [(vs & Hvs & Hv) | [_ <-]]; eexists; (split; [done |]).
        -- rewrite Hvs. simpl. set_solver.
        -- set_solver.
    + rewrite lookup_insert_ne by done. split; [eauto | intros [H|[? _]]; done].
Qed.

Lemma get_add_absent s a op v :
  hasNumericRefinement (getNumericRefinements s a) op v = false →
  getNumericRefinements (addNumericRefinement s a op v) a =
  <[op := default ∅ (getNumericRefinements s a !! op) ∪ {[v]}]>
    (getNumericRefinements s a).
Proof.
  intros Hin. unfold addNumericRefinement.
  rewrite isNumericRefined_has, Hin. apply get_set_insert.
Qed.

Lemma get_remove s a op v vs0 :
  getNumericRefinements s a !! op = Some vs0 → v ∈ vs0 →
  getNumericRefinements (removeNumericRefinement s a op v) a =
  if decide (vs0 ∖ {[v]} = ∅)
  then delete op (getNumericRefinements s a)
  else <[op := vs0 ∖ {[v]}]> (getNumericRefinements s a).
Proof.
  intros Hop Hv. unfold removeNumericRefinement.
  rewrite isNumericRefined_has.
  assert (hasNumericRefinement (getNumericRefinements s a) op v = true)
    as -> by (apply has_iff; eauto).
  simpl. rewrite Hop. simpl.
  match goal with |- context [decide (?m = ∅)] =>
    destruct (decide (m = ∅)) as [He | Hne] end.
  - rewrite get_set_delete. done.
  - rewrite get_set_insert. done.
Qed.

(** After [removeNumericRefinement] exactly that pair is gone. *)
Lemma has_remove s a op v op' v' :
  hasNumericRefinement
    (getNumericRefinements (removeNumericRefinement s a op v) a) op' v' =
  hasNumericRefinement (getNumericRefinements s a) op' v'
  && negb (bool_decide (op = op') && bool_decide (v = v')).
Proof.
  destruct (hasNumericRefinement (getNumericRefinements s a) op v) eqn:Hin.
  - apply has_iff in Hin as (vs0 & Hop & Hv).
    rewrite (get_remove _ _ _ _ _ Hop Hv). apply bool_ext.
    rewrite andb_true_iff, negb_true_iff, andb_false_iff,
      !bool_decide_eq_false, !has_iff.
    destruct (decide (op = op')) as [<- | Hne].
    + destruct (decide (vs0 ∖ {[v]} = ∅)) as [He | He].
      * rewrite lookup_delete_eq. split; [intros (? & ? & _); done |].
        intros [(vs & Hvs & Hv') Hd]. rewrite Hop in Hvs.
        injection Hvs as <-. exfalso.
        assert (v' ∈ vs0 ∖ {[v]}) as Hx by set_solver.
        rewrite He in Hx. set_solver.
      * rewrite lookup_insert_eq. split.
        -- intros (vs & [= <-] & Hv'). split; [exists vs0; set_solver |].
           right. set_solver.
        -- intros [(vs & Hvs & Hv') Hd]. rewrite Hop in Hvs.
           injection Hvs as <-. eexists. split; [done |]. set_solver.
    + destruct (decide (vs0 ∖ {[v]} = ∅)) as [He | He].
      * rewrite lookup_delete_ne by done. split; [eauto | tauto].
      * rewrite lookup_insert_ne by done. split; [eauto | tauto].
  - unfold removeNumericRefinement. rewrite isNumericRefined_has, Hin. simpl.
    apply bool_ext.
    rewrite andb_true_iff, negb_true_iff, andb_false_iff,
      !bool_decide_eq_false.
    split; [| tauto]. intros H. split; [done |].
    destruct (decide (op = op')) as [<- | ?]; [| tauto].
    right. intros <-. congruence.
Qed.

(** *** The whole snapshot *)

Lemma state_ext s s' :
  numericRefinements s = numericRefinements s' →
  hierarchicalFacets s = hierarchicalFacets s' →
  page s = page s' →
  s = s'.
Proof. destruct s, s'. simpl. congruence. Qed.

Lemma frame_clear s a :
  hierarchicalFacets (clearRefinements s a) = hierarchicalFacets s
  ∧ page (clearRefinements s a) = page s.
Proof. done. Qed.

Lemma frame_add s a op v :
  hierarchicalFacets (addNumericRefinement s a op v) = hierarchicalFacets s
  ∧ page (addNumericRefinement s a op v) = page s.
Proof.
  unfold addNumericRefinement. by destruct (isNumericRefined s a op v).
Qed.

Lemma frame_remove s a op v :
  hierarchicalFacets (removeNumericRefinement s a op v)
  = hierarchicalFacets s
  ∧ page (removeNumericRefinement s a op v) = page s.
Proof.
  unfold removeNumericRefinement. by destruct (isNumericRefined s a op v).
Qed.

Lemma get_nonempty_lookup s a op vs :
  getNumericRefinements s a !! op = Some vs →
  numericRefinements s !! a = Some (getNumericRefinements s a).
Proof.
  unfold getNumericRefinements.
  destruct (numericRefinements s !! a); simpl; [done |].
  by rewrite lookup_empty.
Qed.

(** Adding the single pair [op v] to a cleared attribute. *)
Lemma nr_add_clear s a op v :
  numericRefinements (addNumericRefinement (clearRefinements s a) a op v)
  = <[a := {[ op := {[ v ]} ]}]> (numericRefinements s).
Proof.
  unfold addNumericRefinement.
  rewrite isNumericRefined_has, has_clear, get_clear. simpl.
  rewrite lookup_empty. simpl.
  rewrite (left_id_L ∅ (∪)), insert_delete_eq, insert_empty. done.
Qed.

(** Removing the only pair of an attribute drops the attribute. *)
Lemma nr_remove_last s a op v :
  getNumericRefinements s a = {[ op := {[ v ]} ]} →
  numericRefinements (removeNumericRefinement s a op v)
  = delete a (numericRefinements s).
Proof.
  intros Hcur. unfold removeNumericRefinement.
  rewrite isNumericRefined_has, Hcur.
  assert (hasNumericRefinement ({[ op := {[ v ]} ]}) op v = true) as ->.
  { apply has_iff. exists {[ v ]}.
    split; [apply lookup_singleton_eq | set_solver]. }
  simpl. rewrite lookup_singleton_eq. simpl.
  assert (({[ v ]} : gset Z) ∖ {[ v ]} = ∅) as Hempty by set_solver.
  destruct (decide (({[ v ]} : gset Z) ∖ {[ v ]} = ∅)); [| done].
  rewrite delete_singleton_eq. by destruct (decide _).
Qed.

(** Whatever [removeNumericRefinement] does to an attribute, the other
    attributes keep their refinements. *)
Lemma nr_remove_delete s a op v :
  delete a (numericRefinements (removeNumericRefinement s a op v))
  = delete a (numericRefinements s).
Proof.
  unfold removeNumericRefinement.
  destruct (isNumericRefined s a op v); simpl; [| done].
  match goal with |- context [decide (?m = ∅)] =>
    destruct (decide (m = ∅)) end.
  - by rewrite delete_delete_eq.
  - by rewrite delete_insert_eq.
Qed.

End SearchParametersFacts.

(** ** connectNumericRefinementList *)

Section NumericRefinementListFacts.
Import SearchParameters NumericRefinementList.

Implicit Types (s : SearchParameters.t) (a fv : string).
Implicit Types (o : NumericOption) (options : list NumericOption).

Lemma find_none options fv :
  (∀ o, In o options → name o ≠ fv) → find options fv = None.
Proof.
  intros Hnone. unfold find.
  destruct (List.find _ options) as [o|] eqn:Hfind; [| done].
  apply find_some in Hfind as [Hin Heq].
  apply String.eqb_eq in Heq. by apply Hnone in Hin.
Qed.

(** C10. For an option with both bounds defined and different,
    [isRefined] is the presence of the [>=] refinement at [start]: it is
    true exactly when the state holds a [>=] set that contains [start],
    and it is the same for every other value of the [end] bound. *)
Theorem isRefined_range_reads_start_only s a o lo hi :
  start o = Some lo → end_ o = Some hi → lo ≠ hi →
  isRefined s a o
    = hasNumericRefinement (getNumericRefinements s a) ">=" lo
  ∧ (isRefined s a o = true ↔
     ∃ vs, getNumericRefinements s a !! ">=" = Some vs ∧ lo ∈ vs)
  ∧ (∀ hi', hi' ≠ lo →
     isRefined s a {| name := name o; start := Some lo; end_ := Some hi' |}
     = isRefined s a o).
Proof.
  intros Hlo Hhi Hne.
  assert (isRefined s a o
          = hasNumericRefinement (getNumericRefinements s a) ">=" lo) as Heq.
  { unfold isRefined. rewrite Hlo, Hhi.
    destruct (Z.eqb_spec lo hi); [done | reflexivity]. }
  split; [done |]. split.
  - rewrite Heq. apply has_iff.
  - intros hi' Hne'. rewrite Heq. unfold isRefined. simpl.
    destruct (Z.eqb_spec lo hi'); [congruence | reflexivity].
Qed.

Lemma isRefined_range_reads_start_only_witness :
  isRefined Sample.atLeast10 "price" Sample.from20to30
    = hasNumericRefinement
        (getNumericRefinements Sample.atLeast10 "price") ">=" 20
  ∧ (isRefined Sample.atLeast10 "price" Sample.from20to30 = true ↔
     ∃ vs, getNumericRefinements Sample.atLeast10 "price" !! ">=" = Some vs
           ∧ 20 ∈ vs)
  ∧ (∀ hi', hi' ≠ 20 →
     isRefined Sample.atLeast10 "price"
       {| name := name Sample.from20to30; start := Some 20;
          end_ := Some hi' |}
     = isRefined Sample.atLeast10 "price" Sample.from20to30).
Proof.
  apply (isRefined_range_reads_start_only
           Sample.atLeast10 "price" Sample.from20to30 20 30);
    [reflexivity | reflexivity | lia].
Defined.

(** C4. Toggling an option whose two bounds are defined with
    [start > end] raises the error of the bounds check, whatever the
    state and the rest of the catalog; no state is returned. *)
Theorem refine_start_above_end_throws s a options fv o lo hi :
  find options fv = Some o →
  start o = Some lo → end_ o = Some hi → hi < lo →
  refine s a options fv
    = Throw (Error "option.start should be > to option.end")
  ∧ ∀ s', refine s a options fv ≠ Ok s'.
Proof.
  intros Hfind Hlo Hhi Hlt.
  assert (refine s a options fv
          = Throw (Error "option.start should be > to option.end")) as ->.
  { unfold refine. rewrite Hfind, Hlo, Hhi. simpl.
    destruct (Z.gtb_spec lo hi); [reflexivity | lia]. }
  split; [reflexivity | discriminate].
Qed.

Lemma refine_start_above_end_throws_witness :
  refine Sample.atLeast10 "price" Sample.catalog "50 - 10"
    = Throw (Error "option.start should be > to option.end")
  ∧ ∀ s', refine Sample.atLeast10 "price" Sample.catalog "50 - 10" ≠ Ok s'.
Proof.
  apply (refine_start_above_end_throws
           Sample.atLeast10 "price" Sample.catalog "50 - 10"
           Sample.from50to10 50 10);
    [reflexivity | reflexivity | reflexivity | lia].
Defined.

(** C5. Toggling a name that no option of the catalog bears raises at
    once: the lookup yields [undefined] and the first read of a bound on
    it is a [TypeError].  The toggle closure of the widget raises the
    same exception and leaves the helper (its state and the number of
    searches triggered) as it was; the URL closure raises as well. *)
Theorem refine_unknown_option_throws s (wp : WidgetParams) fv :
  (∀ o, In o (options wp) → name o ≠ fv) →
  refine s (attributeName wp) (options wp) fv
    = Throw (TypeError "Cannot read property 'start' of undefined")
  ∧ (∀ helper, Helper.state helper = s →
     toggleRefinement_closure wp fv helper
     = (helper,
        Throw (TypeError "Cannot read property 'start' of undefined")))
  ∧ (∀ createURL,
     createURL_closure wp createURL s fv
     = Throw (TypeError "Cannot read property 'start' of undefined")).
Proof.
  intros Hnone. apply find_none in Hnone.
  assert (refine s (attributeName wp) (options wp) fv
          = Throw (TypeError "Cannot read property 'start' of undefined"))
    as Hthrow by (unfold refine; by rewrite Hnone).
  split; [done |]. split.
  - intros helper <-.
    unfold toggleRefinement_closure, bind, get, lift. simpl.
    by rewrite Hthrow.
  - intros createURL. unfold createURL_closure. by rewrite Hthrow.
Qed.

Lemma refine_unknown_option_throws_witness :
  refine Sample.atLeast10 "price" Sample.catalog "40 - 50"
    = Throw (TypeError "Cannot read property 'start' of undefined")
  ∧ toggleRefinement_closure Sample.widgetParams "40 - 50" Sample.helper
    = (Sample.helper,
       Throw (TypeError "Cannot read property 'start' of undefined"))
  ∧ (∀ createURL,
     createURL_closure Sample.widgetParams createURL Sample.atLeast10
       "40 - 50"
     = Throw (TypeError "Cannot read property 'start' of undefined")).
Proof.
  destruct (refine_unknown_option_throws
              Sample.atLeast10 Sample.widgetParams "40 - 50")
    as (Hrefine & Htoggle & Hurl).
  - intros o Hin. simpl in Hin.
    destruct Hin as [<- | [<- | [<- | [<- | [<- | []]]]]]; discriminate.
  - split; [exact Hrefine |].
    split; [apply Htoggle; reflexivity | exact Hurl].
Defined.

(** C6. Toggling the option without bounds returns the state cleared
    for the attribute: its mapping of numeric refinements is empty, so no
    operator holds any value, whatever the state held before. *)
Theorem refine_reset_option_clears s a options fv o :
  find options fv = Some o →
  start o = None → end_ o = None →
  ∃ s', refine s a options fv = Ok s'
        ∧ s' = clearRefinements s a
        ∧ getNumericRefinements s' a = ∅
        ∧ ∀ op v,
            hasNumericRefinement (getNumericRefinements s' a) op v = false.
Proof.
  intros Hfind Hlo Hhi. exists (clearRefinements s a).
  split; [| split; [done | split]].
  - unfold refine. rewrite Hfind, Hlo, Hhi. reflexivity.
  - apply get_clear.
  - intros op v. apply has_clear.
Qed.

Lemma refine_reset_option_clears_witness :
  ∃ s', refine Sample.atLeast10 "price" Sample.catalog "All" = Ok s'
        ∧ s' = clearRefinements Sample.atLeast10 "price"
        ∧ getNumericRefinements s' "price" = ∅
        ∧ ∀ op v,
            hasNumericRefinement (getNumericRefinements s' "price") op v
            = false.
Proof.
  apply (refine_reset_option_clears
           Sample.atLeast10 "price" Sample.catalog "All" Sample.all);
    reflexivity.
Defined.

Lemma isRefined_range s a o lo hi :
  start o = Some lo → end_ o = Some hi → lo ≠ hi →
  isRefined s a o
  = hasNumericRefinement (getNumericRefinements s a) ">=" lo.
Proof.
  intros Hlo Hhi Hne. unfold isRefined. rewrite Hlo, Hhi.
  destruct (Z.eqb_spec lo hi); [done | reflexivity].
Qed.

Lemma isRefined_point s a o v :
  start o = Some v → end_ o = Some v →
  isRefined s a o
  = hasNumericRefinement (getNumericRefinements s a) "=" v.
Proof.
  intros Hlo Hhi. unfold isRefined. by rewrite Hlo, Hhi, Z.eqb_refl.
Qed.

(** What [refine] returns for an option with two different, ordered
    bounds, as one equation. *)
Lemma refine_range s a options fv o lo hi :
  find options fv = Some o →
  start o = Some lo → end_ o = Some hi → lo < hi →
  refine s a options fv =
  let cur := getNumericRefinements s a in
  let s0 :=
    if negb (hasNumericRefinement cur ">=" lo)
    then clearRefinements s a else s in
  let s1 :=
    if hasNumericRefinement cur ">=" lo
    then removeNumericRefinement s0 a ">=" lo
    else addNumericRefinement s0 a ">=" lo in
  Ok (if hasNumericRefinement cur "<=" hi
      then removeNumericRefinement s1 a "<=" hi
      else addNumericRefinement s1 a "<=" hi).
Proof.
  intros Hfind Hlo Hhi Hlt. unfold refine.
  rewrite Hfind, (isRefined_range s a o lo hi) by (done || lia).
  rewrite Hlo, Hhi. simpl.
  destruct (Z.gtb_spec lo hi); [lia |].
  destruct (Z.eqb_spec lo hi); [lia |]. reflexivity.
Qed.

(** What [refine] returns for an option with two equal bounds. *)
Lemma refine_point s a options fv o v :
  find options fv = Some o →
  start o = Some v → end_ o = Some v →
  refine s a options fv =
  let cur := getNumericRefinements s a in
  let s0 :=
    if negb (hasNumericRefinement cur "=" v)
    then clearRefinements s a else s in
  Ok (if hasNumericRefinement cur "=" v
      then removeNumericRefinement s0 a "=" v
      else addNumericRefinement s0 a "=" v).
Proof.
  intros Hfind Hlo Hhi. unfold refine.
  rewrite Hfind, (isRefined_point s a o v) by done.
  rewrite Hlo, Hhi. simpl.
  destruct (Z.gtb_spec v v); [lia |]. by rewrite Z.eqb_refl.
Qed.

(** C3. For an option with both bounds defined and [start < end], one
    call of [refine] returns a state in which the presence of the [>=]
    refinement at [start] and the presence of the [<=] refinement at
    [end] are each the opposite of what they were in the incoming
    state: added if absent, removed if present. *)
Theorem refine_range_toggles_both_bounds s a options fv o lo hi :
  find options fv = Some o →
  start o = Some lo → end_ o = Some hi → lo < hi →
  ∃ s', refine s a options fv = Ok s'
    ∧ hasNumericRefinement (getNumericRefinements s' a) ">=" lo
      = negb (hasNumericRefinement (getNumericRefinements s a) ">=" lo)
    ∧ hasNumericRefinement (getNumericRefinements s' a) "<=" hi
      = negb (hasNumericRefinement (getNumericRefinements s a) "<=" hi).
Proof.
  intros Hfind Hlo Hhi Hlt.
  rewrite (refine_range s a options fv o lo hi) by done. simpl.
  eexists. split; [reflexivity |].
  destruct (hasNumericRefinement (getNumericRefinements s a) ">=" lo)
    eqn:Hge;
  destruct (hasNumericRefinement (getNumericRefinements s a) "<=" hi)
    eqn:Hle; simpl;
  rewrite ?has_add, ?has_remove, ?has_add, ?has_remove, ?has_clear,
    ?Hge, ?Hle;
  repeat case_bool_decide; simpl; (done || congruence).
Qed.

Lemma refine_range_toggles_both_bounds_witness :
  ∃ s', refine Sample.atMost30 "price" Sample.catalog "20 - 30" = Ok s'
    ∧ hasNumericRefinement (getNumericRefinements s' "price") ">=" 20
      = negb (hasNumericRefinement
                (getNumericRefinements Sample.atMost30 "price") ">=" 20)
    ∧ hasNumericRefinement (getNumericRefinements s' "price") "<=" 30
      = negb (hasNumericRefinement
                (getNumericRefinements Sample.atMost30 "price") "<=" 30).
Proof.
  apply (refine_range_toggles_both_bounds
           Sample.atMost30 "price" Sample.catalog "20 - 30"
           Sample.from20to30 20 30);
    [reflexivity | reflexivity | reflexivity | lia].
Defined.

(** What [refine] returns for an option that stands for one refinement
    [op v]: a point, a lower bound alone or an upper bound alone. *)
Lemma refine_single s a options fv o op v :
  find options fv = Some o →
  constraints o = [(op, v)] →
  isRefined s a o = hasNumericRefinement (getNumericRefinements s a) op v
  ∧ refine s a options fv =
    Ok (if hasNumericRefinement (getNumericRefinements s a) op v
        then removeNumericRefinement s a op v
        else addNumericRefinement (clearRefinements s a) a op v).
Proof.
  intros Hfind Hone. unfold constraints in Hone.
  destruct (start o) as [lo|] eqn:Hlo; destruct (end_ o) as [hi|] eqn:Hhi;
    try done.
  - destruct (Z.eqb_spec lo hi) as [<- | Hne]; [| done].
    injection Hone as <- <-.
    rewrite (isRefined_point s a o lo), (refine_point s a options fv o lo)
      by done.
    simpl. split; [done |].
    by destruct (hasNumericRefinement (getNumericRefinements s a) "=" lo).
  - injection Hone as <- <-. unfold refine, isRefined.
    rewrite Hfind, Hlo, Hhi. simpl. split; [done |].
    by destruct (hasNumericRefinement (getNumericRefinements s a) ">=" lo).
  - injection Hone as <- <-. unfold refine, isRefined.
    rewrite Hfind, Hlo, Hhi. simpl. split; [done |].
    by destruct (hasNumericRefinement (getNumericRefinements s a) "<=" hi).
Qed.

Lemma constraints_cases o :
  (start o = None ∧ end_ o = None)
  ∨ (∃ op v, constraints o = [(op, v)])
  ∨ (∃ lo hi, start o = Some lo ∧ end_ o = Some hi ∧ lo ≠ hi).
Proof.
  unfold constraints.
  destruct (start o) as [lo|], (end_ o) as [hi|]; eauto.
  destruct (Z.eqb_spec lo hi); [| by eauto 10].
  right. left. eauto.
Qed.

(** C2, as the claim states it, fails on two kinds of input.  The
    option [20 - 30] is not refined on a state that holds [<= 30] alone,
    and toggling it returns [>= 20] alone: the constraint [<= 30] of the
    option is not applied.  The option [50 - 10] is not refined on a state
    that holds [>= 10], and toggling it raises: no state is returned. *)
Lemma refine_unrefined_option_not_always_applied :
  (isRefined Sample.atMost30 "price" Sample.from20to30 = false
   ∧ ∃ s', refine Sample.atMost30 "price" Sample.catalog "20 - 30" = Ok s'
           ∧ getNumericRefinements s' "price" = {[ ">=" := {[ 20 ]} ]}
           ∧ hasNumericRefinement (getNumericRefinements s' "price") "<=" 30
             = false)
  ∧ (isRefined Sample.atLeast10 "price" Sample.from50to10 = false
     ∧ refine Sample.atLeast10 "price" Sample.catalog "50 - 10"
       = Throw (Error "option.start should be > to option.end")).
Proof.
  split; [split; [reflexivity |] | split; reflexivity].
  eexists. split; [reflexivity |]. split; reflexivity.
Qed.

(** C2, amended. When the option is not refined on the incoming state,
    its bounds are ordered and the incoming state holds none of its
    constraints, [refine] clears the attribute and then adds them: the
    refinements of the returned state for the attribute are the
    constraints of the option, all of them and nothing else, so nothing
    of the incoming state remains.  In particular, from a state whose
    refinements for the attribute are exactly [>= 10], the option
    [start = 20, end = 30] yields exactly [>= 20] and [<= 30]. *)
Theorem refine_unrefined_option_clears_first s a options fv o :
  find options fv = Some o →
  isRefined s a o = false →
  (∀ lo hi, start o = Some lo → end_ o = Some hi → lo ≤ hi) →
  (∀ op v, In (op, v) (constraints o) →
     hasNumericRefinement (getNumericRefinements s a) op v = false) →
  ∃ s', refine s a options fv = Ok s'
    ∧ getNumericRefinements s' a
      = list_to_map
          (map (λ c, (fst c, ({[ snd c ]} : gset Z))) (constraints o))
    ∧ (∀ op v,
         hasNumericRefinement (getNumericRefinements s' a) op v = true ↔
         In (op, v) (constraints o))
    ∧ (start o = Some 20 → end_ o = Some 30 →
       getNumericRefinements s a = {[ ">=" := {[ 10 ]} ]} →
       getNumericRefinements s' a
       = {[ ">=" := {[ 20 ]}; "<=" := {[ 30 ]} ]}).
Proof.
  intros Hfind Hnot Hord Hnone.
  destruct (constraints_cases o)
    as [[Hlo Hhi] | [(op & v & Hone) | (lo & hi & Hlo & Hhi & Hne)]].
  - unfold refine, constraints. rewrite Hfind, Hlo, Hhi. simpl.
    eexists. split; [reflexivity |].
    split; [apply get_clear |].
    split; [| intros; simplify_eq].
    intros op v. rewrite has_clear. naive_solver.
  - destruct (refine_single s a options fv o op v Hfind Hone) as [His ->].
    rewrite His in Hnot. rewrite Hnot, Hone.
    eexists. split; [reflexivity |].
    split.
    { unfold getNumericRefinements.
      by rewrite nr_add_clear, lookup_insert_eq. }
    split.
    + intros op' v'. rewrite has_add, has_clear. simpl.
      rewrite andb_true_iff, !bool_decide_eq_true. naive_solver.
    + intros Hlo Hhi. unfold constraints in Hone.
      rewrite Hlo, Hhi in Hone. done.
  - specialize (Hord lo hi Hlo Hhi).
    assert (hasNumericRefinement (getNumericRefinements s a) "<=" hi = false)
      as Hle.
    { apply Hnone. unfold constraints. rewrite Hlo, Hhi.
      destruct (Z.eqb_spec lo hi); [done |]. right. by left. }
    rewrite (isRefined_range s a o lo hi) in Hnot by done.
    rewrite (refine_range s a options fv o lo hi) by (done || lia).
    simpl. rewrite Hnot, Hle. simpl.
    eexists. split; [reflexivity |].
    assert (getNumericRefinements
              (addNumericRefinement
                 (addNumericRefinement (clearRefinements s a) a ">=" lo)
                 a "<=" hi) a
            = {[ ">=" := {[ lo ]}; "<=" := {[ hi ]} ]}) as Hcur.
    { rewrite !get_add_absent, get_clear
        by (rewrite ?has_add, has_clear; done).
      rewrite lookup_insert_ne, !lookup_empty by done. simpl.
      rewrite !(left_id_L ∅ (∪)).
      rewrite insert_insert_ne by done. done. }
    unfold constraints. rewrite Hlo, Hhi.
    destruct (Z.eqb_spec lo hi); [done |].
    split; [exact Hcur |]. split.
    + intros op v. rewrite !has_add, has_clear. simpl.
      rewrite orb_true_iff, !andb_true_iff, !bool_decide_eq_true.
      naive_solver.
    + intros [= ->] [= ->] _. exact Hcur.
Qed.

Lemma refine_unrefined_option_clears_first_witness :
  ∃ s', refine Sample.atLeast10 "price" Sample.catalog "20 - 30" = Ok s'
    ∧ getNumericRefinements s' "price"
      = list_to_map
          (map (λ c, (fst c, ({[ snd c ]} : gset Z)))
             (constraints Sample.from20to30))
    ∧ (∀ op v,
         hasNumericRefinement (getNumericRefinements s' "price") op v = true
         ↔ In (op, v) (constraints Sample.from20to30))
    ∧ getNumericRefinements s' "price"
      = {[ ">=" := {[ 20 ]}; "<=" := {[ 30 ]} ]}.
Proof.
  destruct (refine_unrefined_option_clears_first
              Sample.atLeast10 "price" Sample.catalog "20 - 30"
              Sample.from20to30) as (s' & Hok & Hmap & Hall & Hex).
  - reflexivity.
  - reflexivity.
  - intros lo hi [= <-] [= <-]. lia.
  - intros op v [[= <- <-] | [[= <- <-] | []]]; reflexivity.
  - exists s'. split; [exact Hok |]. split; [exact Hmap |].
    split; [exact Hall |]. apply Hex; reflexivity.
Defined.

(** C1, as the claim states it, fails: from a state that holds
    [price >= 10], toggling the point option [5] twice returns a state
    with no refinement at all for [price]. *)
Lemma refine_point_option_twice_drops_other_refinements :
  ∃ s1 s2,
    refine Sample.atLeast10 "price" Sample.catalog "5" = Ok s1
    ∧ refine s1 "price" Sample.catalog "5" = Ok s2
    ∧ getNumericRefinements s2 "price" = ∅
    ∧ s2 ≠ Sample.atLeast10.
Proof.
  eexists _, _. split; [reflexivity |]. split; [reflexivity |].
  split; [reflexivity |].
  intros Heq.
  apply (f_equal (λ s, getNumericRefinements s "price" !! ">=")) in Heq.
  vm_compute in Heq. discriminate.
Qed.

(** C1, amended. For an option with equal bounds [v], toggling twice
    returns the base state exactly when the base state holds, for the
    attribute, either no numeric refinement or the refinement [= v]
    alone; both calls return a state. *)
Theorem refine_point_option_twice s a options fv o v :
  find options fv = Some o →
  start o = Some v → end_ o = Some v →
  ∃ s1 s2,
    refine s a options fv = Ok s1
    ∧ refine s1 a options fv = Ok s2
    ∧ (s2 = s ↔
       numericRefinements s !! a = None
       ∨ numericRefinements s !! a = Some {[ "=" := {[ v ]} ]}).
Proof.
  intros Hfind Hlo Hhi.
  rewrite (refine_point s a options fv o v) by done. simpl.
  destruct (hasNumericRefinement (getNumericRefinements s a) "=" v)
    eqn:Hin; simpl.
  - set (s1 := removeNumericRefinement s a "=" v).
    exists s1, (addNumericRefinement (clearRefinements s1 a) a "=" v).
    split; [done |].
    assert (hasNumericRefinement (getNumericRefinements s1 a) "=" v = false)
      as Hout.
    { unfold s1. rewrite has_remove, Hin.
      by rewrite !bool_decide_true by done. }
    split.
    { rewrite (refine_point s1 a options fv o v) by done.
      simpl. by rewrite Hout. }
    assert (numericRefinements
              (addNumericRefinement (clearRefinements s1 a) a "=" v)
            = <[a := {[ "=" := {[ v ]} ]}]> (numericRefinements s)) as Hnr.
    { rewrite nr_add_clear. unfold s1.
      rewrite <- insert_delete_eq, nr_remove_delete, insert_delete_eq.
      done. }
    apply has_iff in Hin as (vs & Hvs & Hv).
    pose proof (get_nonempty_lookup _ _ _ _ Hvs) as Hsome.
    split.
    + intros Heq. right. rewrite <- Heq at 1. rewrite Hnr.
      apply lookup_insert_eq.
    + intros [Hnone | Hone]; [congruence |].
      apply state_ext.
      * rewrite Hnr. by apply insert_id.
      * destruct (frame_add (clearRefinements s1 a) a "=" v) as [-> _].
        destruct (frame_remove s a "=" v) as [Hf _]. exact Hf.
      * destruct (frame_add (clearRefinements s1 a) a "=" v) as [_ ->].
        destruct (frame_remove s a "=" v) as [_ Hp]. exact Hp.
  - set (s1 := addNumericRefinement (clearRefinements s a) a "=" v).
    exists s1, (removeNumericRefinement s1 a "=" v).
    split; [done |].
    assert (getNumericRefinements s1 a = {[ "=" := {[ v ]} ]}) as Hcur.
    { unfold getNumericRefinements, s1.
      by rewrite nr_add_clear, lookup_insert_eq. }
    assert (hasNumericRefinement (getNumericRefinements s1 a) "=" v = true)
      as Hnow.
    { rewrite Hcur. apply has_iff. exists {[ v ]}.
      split; [apply lookup_singleton_eq | set_solver]. }
    split.
    { rewrite (refine_point s1 a options fv o v) by done.
      simpl. by rewrite Hnow. }
    assert (numericRefinements (removeNumericRefinement s1 a "=" v)
            = delete a (numericRefinements s)) as Hnr.
    { rewrite (nr_remove_last s1 a "=" v Hcur). unfold s1.
      by rewrite nr_add_clear, delete_insert_eq. }
    split.
    + intros Heq. left. rewrite <- Heq at 1. rewrite Hnr.
      apply lookup_delete_eq.
    + intros [Hnone | Hone].
      * apply state_ext.
        -- rewrite Hnr. by apply delete_id.
        -- destruct (frame_remove s1 a "=" v) as [-> _].
           destruct (frame_add (clearRefinements s a) a "=" v) as [Hf _].
           exact Hf.
        -- destruct (frame_remove s1 a "=" v) as [_ ->].
           destruct (frame_add (clearRefinements s a) a "=" v) as [_ Hp].
           exact Hp.
      * exfalso. apply not_true_iff_false in Hin. apply Hin.
        apply has_iff. exists {[ v ]}. unfold getNumericRefinements.
        rewrite Hone. simpl.
        split; [apply lookup_singleton_eq | set_solver].
Qed.

Lemma refine_point_option_twice_witness :
  ∃ s1 s2,
    refine SearchParameters.empty "price" Sample.catalog "5" = Ok s1
    ∧ refine s1 "price" Sample.catalog "5" = Ok s2
    ∧ (s2 = SearchParameters.empty ↔
       numericRefinements SearchParameters.empty !! "price" = None
       ∨ numericRefinements SearchParameters.empty !! "price"
         = Some {[ "=" := {[ 5 ]} ]}).
Proof.
  apply (refine_point_option_twice
           SearchParameters.empty "price" Sample.catalog "5"
           Sample.exactly5 5); reflexivity.
Defined.

End NumericRefinementListFacts.

(** ** connectBreadcrumb: the flattening of the refined path *)

Section BreadcrumbFacts.
Import SearchResults Breadcrumb.

(** Induction over a facet tree, with the hypothesis for every child. *)
Lemma FacetValue_nested_ind (P : FacetValue → Prop) :
  (∀ n p r, P (mkFacetValue n p r None)) →
  (∀ n p r children,
     Forall P children → P (mkFacetValue n p r (Some children))) →
  ∀ node, P node.
Proof.
  intros Hleaf Hnode. fix IH 1. intros [n p r [children|]].
  - apply Hnode. induction children as [|c children IHc].
    + constructor.
    + constructor; [apply IH | apply IHc].
  - apply Hleaf.
Qed.

(** The reduction of [prepareItems], started from any accumulator. *)
Lemma prepareItems_fold children :
  Forall (λ c, ∀ nested, data c = Some nested →
               prepareItems c = Ok (flatten nested)) children →
  ∀ acc,
    fold_left (reducer prepareItems) children (Ok acc)
    = Ok (acc ++ flatten children).
Proof.
  induction 1 as [|c children Hc _ IH]; intros acc.
  - simpl. by rewrite app_nil_r.
  - cbn [fold_left]. unfold reducer at 2.
    destruct c as [n p r d]. cbn [isRefined data name path] in *.
    destruct r.
    + destruct d as [nested|]; cbn [isArray].
      * rewrite (Hc nested eq_refl). rewrite IH.
        unfold flatten. simpl. by rewrite <- !app_assoc.
      * rewrite IH. unfold flatten. simpl. by rewrite <- !app_assoc.
    + by rewrite IH.
Qed.

Lemma prepareItems_unfold n p r children :
  prepareItems (mkFacetValue n p r (Some children))
  = fold_left (reducer prepareItems) children (Ok []).
Proof. reflexivity. Qed.

(** On a node that has an array of children, [prepareItems] returns the
    traversal of the specification: refined children only, each followed
    at once by the flattening of its own children, in the order of the
    tree. *)
Lemma prepareItems_flatten node children :
  data node = Some children →
  prepareItems node = Ok (flatten children).
Proof.
  revert children. induction node as [n p r | n p r cs IH]
    using FacetValue_nested_ind; intros children Hdata; [done |].
  simpl in Hdata. injection Hdata as <-.
  rewrite prepareItems_unfold. by rewrite (prepareItems_fold cs IH []).
Qed.

Lemma flatten_cons child children :
  flatten (child :: children) =
  (if isRefined child then
     {| item_name := name child; item_value := path child |}
     :: match data child with
        | Some nested => flatten nested
        | None => []
        end
   else [])
  ++ flatten children.
Proof. unfold flatten. by destruct child as [n p [] [d|]]. Qed.

Lemma flatten_none_refined children :
  Forall (λ c, isRefined c = false) children → flatten children = [].
Proof.
  induction 1 as [|c children Hc _ IH]; [done |].
  rewrite flatten_cons, Hc, IH. done.
Qed.

Example prepareItems_sample_tree :
  prepareItems Sample.tree
  = Ok [ {| item_name := "Cameras"; item_value := Some "Cameras" |};
         {| item_name := "Digital";
            item_value := Some "Cameras > Digital" |} ].
Proof. reflexivity. Qed.

(** C7. The top-level call of [prepareItems] reads [obj.data.reduce]
    without the [Array.isArray] test that guards the recursive call: on
    a root without an array of children, which has no refined child, it
    raises a [TypeError] where the claim promises the empty sequence. *)
Theorem prepareItems_bare_root_throws :
  (∀ n p r,
     prepareItems (mkFacetValue n p r None)
     = Throw (TypeError "Cannot read property 'reduce' of null"))
  ∧ data Sample.bareRoot = None
  ∧ prepareItems Sample.bareRoot
    = Throw (TypeError "Cannot read property 'reduce' of null").
Proof. split; [intros n p r |]; done. Qed.

End BreadcrumbFacts.

(** ** The connector contract: [init] and [render] *)

Section ConnectorFacts.
Import Connector.

Context {This Payload R : Type}.
Implicit Types (w : World This Payload).

(** A [render] that only ever reports with [isFirstRendering = false]
    keeps doing so over any number of completed searches. *)
Lemma renders_not_first (render : R → M (World This Payload) unit) :
  (∀ r w, ∃ more,
      calls (render r w).1 = calls w ++ more ∧ Forall notFirst more) →
  ∀ completed w, ∃ more,
      calls (renders render completed w).1 = calls w ++ more
      ∧ Forall notFirst more.
Proof.
  intros Hrender completed.
  induction completed as [|r completed IH]; intros w.
  - exists []. simpl. by rewrite app_nil_r.
  - simpl. unfold bind.
    destruct (Hrender r w) as (more1 & Hcalls1 & Hall1).
    destruct (render r w) as [w1 [[]|e]]; simpl in *.
    + destruct (IH w1) as (more2 & Hcalls2 & Hall2).
      exists (more1 ++ more2).
      rewrite Hcalls2, Hcalls1, app_assoc.
      split; [done | by apply Forall_app].
    + by exists more1.
Qed.

(** When [init] reports exactly once, the report of [init] comes first
    in every run of the lifecycle and is the only one flagged as the
    first rendering. *)
Lemma lifecycle_first (init : M (World This Payload) unit)
    (render : R → M (World This Payload) unit) w0 this1 payload :
  calls w0 = [] →
  init w0 = ({| this := this1; calls := [(payload, true)] |}, Ok tt) →
  (∀ r w, ∃ more,
      calls (render r w).1 = calls w ++ more ∧ Forall notFirst more) →
  ∀ completed, ∃ more,
      calls (lifecycle init render completed w0).1
      = (payload, true) :: more
      ∧ Forall notFirst more.
Proof.
  intros _ Hinit Hrender completed. unfold lifecycle, bind.
  rewrite Hinit.
  destruct (renders_not_first render Hrender completed
              {| this := this1; calls := [(payload, true)] |})
    as (more & Hcalls & Hall).
  exists more. by rewrite Hcalls.
Qed.

End ConnectorFacts.

Section WidgetFacts.
Import Connector.

Context {InstantSearch : Type}.

Lemma pagination_render_not_first (wp : Pagination.WidgetParams)
    (o : Pagination.RenderOptions (InstantSearch := InstantSearch)) w :
  ∃ more, calls (Pagination.render wp o w).1 = calls w ++ more
          ∧ Forall notFirst more.
Proof.
  unfold Pagination.render, Pagination.call_createURL, bind, get.
  destruct (Pagination.this_createURL (this w)); simpl.
  - eexists [_]. split; [reflexivity |]. by constructor.
  - exists []. by rewrite app_nil_r.
Qed.

Lemma breadcrumb_render_not_first (wp : Breadcrumb.WidgetParams)
    (o : Breadcrumb.RenderOptions (InstantSearch := InstantSearch)) w :
  ∃ more, calls (Breadcrumb.render wp o w).1 = calls w ++ more
          ∧ Forall notFirst more.
Proof.
  unfold Breadcrumb.render.
  destruct (SearchParameters.hierarchicalFacets (Breadcrumb.rd_state o))
    as [[|facet rest]|]; try (exists []; by rewrite app_nil_r).
  unfold bind, get, lift, throw.
  destruct (SearchResults.getFacetValues _ _) as [facetsValues|]; simpl;
    [| exists []; by rewrite app_nil_r].
  destruct (Breadcrumb.prepareItems facetsValues); simpl.
  - eexists [_]. split; [reflexivity |]. by constructor.
  - exists []. by rewrite app_nil_r.
Qed.

Lemma numeric_render_not_first (wp : NumericRefinementList.WidgetParams)
    (o : NumericRefinementList.RenderOptions (InstantSearch := InstantSearch))
    w :
  ∃ more, calls (NumericRefinementList.render wp o w).1 = calls w ++ more
          ∧ Forall notFirst more.
Proof.
  unfold NumericRefinementList.render, NumericRefinementList.call_createURL,
    bind, get.
  destruct (NumericRefinementList._createURL (this w)); simpl.
  - eexists [_]. split; [reflexivity |]. by constructor.
  - exists []. by rewrite app_nil_r.
Qed.

(** C8. [init] of each connector completes without exception and
    invokes the render callback exactly once, with
    [isFirstRendering = true] and the neutral values: [nbHits = 0] and
    [nbPages = 0] for the pagination, no item for the breadcrumb, no
    result yet for the numeric refinement list.  In every run of the
    lifecycle, [init] followed by one [render] per completed search,
    that report is the first one and every later one carries
    [isFirstRendering = false]. *)
Theorem init_renders_once_first :
  (∀ (wp : Pagination.WidgetParams)
     (o : Pagination.InitOptions (InstantSearch := InstantSearch)) w,
     ∃ this1 payload,
       Pagination.init wp o w
       = ({| this := this1; calls := calls w ++ [(payload, true)] |}, Ok tt)
       ∧ Pagination.nbHits payload = 0
       ∧ Pagination.nbPages payload = 0
       ∧ ∀ completed, ∃ more,
           calls (lifecycle (Pagination.init wp o) (Pagination.render wp)
                    completed (fresh Pagination.uninitialised)).1
           = (payload, true) :: more
           ∧ Forall notFirst more)
  ∧ (∀ (wp : Breadcrumb.WidgetParams) breadcrumbOf toggle helperToggle
       (o : Breadcrumb.InitOptions (InstantSearch := InstantSearch)) w,
     ∃ this1 payload,
       Breadcrumb.init wp breadcrumbOf toggle helperToggle o w
       = ({| this := this1; calls := calls w ++ [(payload, true)] |}, Ok tt)
       ∧ Breadcrumb.items payload = []
       ∧ Breadcrumb.canRefine payload = false
       ∧ ∀ completed, ∃ more,
           calls (lifecycle
                    (Breadcrumb.init wp breadcrumbOf toggle helperToggle o)
                    (Breadcrumb.render wp)
                    completed (fresh Breadcrumb.uninitialised)).1
           = (payload, true) :: more
           ∧ Forall notFirst more)
  ∧ (∀ (wp : NumericRefinementList.WidgetParams)
       (o : NumericRefinementList.InitOptions
              (InstantSearch := InstantSearch)) w,
     ∃ this1 payload,
       NumericRefinementList.init wp o w
       = ({| this := this1; calls := calls w ++ [(payload, true)] |}, Ok tt)
       ∧ NumericRefinementList.hasNoResults payload = true
       ∧ ∀ completed, ∃ more,
           calls (lifecycle (NumericRefinementList.init wp o)
                    (NumericRefinementList.render wp)
                    completed (fresh NumericRefinementList.uninitialised)).1
           = (payload, true) :: more
           ∧ Forall notFirst more).
Proof.
  split; [| split].
  - intros wp o w. eexists _, _. split; [reflexivity |].
    split; [reflexivity |]. split; [reflexivity |].
    intros completed.
    eapply lifecycle_first; [reflexivity | reflexivity |].
    apply pagination_render_not_first.
  - intros wp breadcrumbOf toggle helperToggle o w.
    eexists _, _. split; [reflexivity |].
    split; [reflexivity |]. split; [reflexivity |].
    intros completed.
    eapply lifecycle_first; [reflexivity | reflexivity |].
    apply breadcrumb_render_not_first.
  - intros wp o w. eexists _, _. split; [cbn; reflexivity |].
    split; [reflexivity |].
    intros completed.
    eapply lifecycle_first; [reflexivity | cbn; reflexivity |].
    apply numeric_render_not_first.
Qed.

(** C9. [render] of the breadcrumb on a state whose
    [hierarchicalFacets] is missing or is an empty list raises the usage
    error and leaves the world as it was: the render callback is not
    invoked. *)
Theorem breadcrumb_render_unconfigured_throws
    (wp : Breadcrumb.WidgetParams)
    (o : Breadcrumb.RenderOptions (InstantSearch := InstantSearch)) w :
  SearchParameters.hierarchicalFacets (Breadcrumb.rd_state o) = None
  ∨ SearchParameters.hierarchicalFacets (Breadcrumb.rd_state o) = Some [] →
  Breadcrumb.render wp o w = (w, Throw (Error Breadcrumb.usage))
  ∧ calls (Breadcrumb.render wp o w).1 = calls w.
Proof.
  intros Hmissing.
  assert (Breadcrumb.render wp o w = (w, Throw (Error Breadcrumb.usage)))
    as ->; [| done].
  unfold Breadcrumb.render. by destruct Hmissing as [-> | ->].
Qed.

End WidgetFacts.

Lemma breadcrumb_render_unconfigured_throws_witness :
  Breadcrumb.render Sample.breadcrumbParams Sample.unconfigured
    (Connector.fresh Breadcrumb.uninitialised)
  = (Connector.fresh Breadcrumb.uninitialised,
     Throw (Error Breadcrumb.usage))
  ∧ Connector.calls
      (Breadcrumb.render Sample.breadcrumbParams Sample.unconfigured
         (Connector.fresh Breadcrumb.uninitialised)).1
    = Connector.calls (Connector.fresh Breadcrumb.uninitialised).
Proof.
  apply (breadcrumb_render_unconfigured_throws
           Sample.breadcrumbParams Sample.unconfigured
           (Connector.fresh Breadcrumb.uninitialised)).
  left. reflexivity.
Defined.

(** ** connectNumericRefinementList: further properties of the toggler *)

Section NumericRefinementListMore.
Import SearchParameters NumericRefinementList.

Implicit Types (s : SearchParameters.t) (a fv op : string) (v : Z).
Implicit Types (o : NumericOption) (options : list NumericOption).

Lemma isRefined_empty s a o :
  getNumericRefinements s a = ∅ →
  isRefined s a o
  = bool_decide (start o = None) && bool_decide (end_ o = None).
Proof.
  intros Hcur. unfold isRefined. rewrite Hcur.
  destruct (start o) as [lo|], (end_ o) as [hi|]; simpl;
    rewrite ?has_empty; try done.
  by destruct (Z.eqb lo hi).
Qed.

(** X1. On a state without numeric refinement for the attribute,
    [isRefined] holds of the options without bounds and of no other. *)
Theorem isRefined_without_refinement s a o :
  getNumericRefinements s a = ∅ →
  isRefined s a o = true ↔ start o = None ∧ end_ o = None.
Proof.
  intros Hcur. rewrite (isRefined_empty s a o Hcur).
  rewrite andb_true_iff, !bool_decide_eq_true. done.
Qed.

Lemma isRefined_without_refinement_witness :
  isRefined SearchParameters.empty "price" Sample.from20to30 = true
  ↔ start Sample.from20to30 = None ∧ end_ Sample.from20to30 = None.
Proof.
  apply (isRefined_without_refinement
           SearchParameters.empty "price" Sample.from20to30).
  reflexivity.
Defined.

(** X2. [refine] raises in two cases only: the name is borne by no
    option (a [TypeError]), or the option found has [start > end] (the
    error of the bounds check); in every other case it returns a state. *)
Theorem refine_throws_iff s a options fv e :
  refine s a options fv = Throw e ↔
  (find options fv = None
   ∧ e = TypeError "Cannot read property 'start' of undefined")
  ∨ (∃ o lo hi,
       find options fv = Some o ∧ start o = Some lo ∧ end_ o = Some hi
       ∧ hi < lo ∧ e = Error "option.start should be > to option.end").
Proof.
  unfold refine. destruct (find options fv) as [o|] eqn:Hfind.
  - destruct (start o) as [lo|] eqn:Hlo; destruct (end_ o) as [hi|] eqn:Hhi;
      simpl.
    + destruct (Z.gtb_spec lo hi) as [Hgt | Hle].
      * split.
        -- intros [= <-]. right. exists o, lo, hi. repeat split; (done || lia).
        -- intros [[? _] | (o' & lo' & hi' & _ & _ & _ & _ & ->)]; done.
      * split.
        -- destruct (Z.eqb lo hi); done.
        -- intros [[? _] | (o' & lo' & hi' & [= <-] & Hlo' & Hhi' & Hlt & _)];
             [done |].
           rewrite Hlo in Hlo'. rewrite Hhi in Hhi'. simplify_eq. lia.
    + split; [done |].
      intros [[? _] | (o' & lo' & hi' & [= <-] & _ & Hhi' & _)]; [done |].
      rewrite Hhi in Hhi'. done.
    + split; [done |].
      intros [[? _] | (o' & lo' & hi' & [= <-] & Hlo' & _)]; [done |].
      rewrite Hlo in Hlo'. done.
    + split; [done |].
      intros [[? _] | (o' & lo' & hi' & [= <-] & Hlo' & _)]; [done |].
      rewrite Hlo in Hlo'. done.
  - split.
    + intros [= <-]. by left.
    + intros [[_ ->] | (o' & ? & ? & ? & _)]; done.
Qed.

(** X3. Toggling an option with at least one bound, and ordered bounds,
    returns a state on which [isRefined] of that option is the opposite
    of what it was: a click on an unselected option selects it, a click
    on a selected option unselects it. *)
Theorem refine_flips_isRefined s a options fv o :
  find options fv = Some o →
  start o ≠ None ∨ end_ o ≠ None →
  (∀ lo hi, start o = Some lo → end_ o = Some hi → lo ≤ hi) →
  ∃ s', refine s a options fv = Ok s'
        ∧ isRefined s' a o = negb (isRefined s a o).
Proof.
  intros Hfind Hbound Hord.
  destruct (constraints_cases o)
    as [[Hlo Hhi] | [(op & v & Hone) | (lo & hi & Hlo & Hhi & Hne)]].
  - destruct Hbound; done.
  - destruct (refine_single s a options fv o op v Hfind Hone) as [His ->].
    eexists. split; [reflexivity |].
    destruct (refine_single
                (if hasNumericRefinement (getNumericRefinements s a) op v
                 then removeNumericRefinement s a op v
                 else addNumericRefinement (clearRefinements s a) a op v)
                a options fv o op v Hfind Hone) as [-> _].
    rewrite His.
    destruct (hasNumericRefinement (getNumericRefinements s a) op v) eqn:Hin.
    + rewrite has_remove, Hin. by rewrite !bool_decide_true by done.
    + rewrite has_add, has_clear. by rewrite !bool_decide_true by done.
  - specialize (Hord lo hi Hlo Hhi).
    rewrite (refine_range s a options fv o lo hi) by (done || lia).
    eexists. split; [reflexivity |].
    rewrite !(isRefined_range _ a o lo hi) by done. simpl.
    destruct (hasNumericRefinement (getNumericRefinements s a) ">=" lo)
      eqn:Hge;
    destruct (hasNumericRefinement (getNumericRefinements s a) "<=" hi)
      eqn:Hle; simpl;
    rewrite ?has_add, ?has_remove, ?has_add, ?has_remove, ?has_clear, ?Hge;
    repeat case_bool_decide; simpl; (done || congruence).
Qed.

Lemma refine_flips_isRefined_witness :
  ∃ s', refine Sample.atLeast10 "price" Sample.catalog "<= 30" = Ok s'
        ∧ isRefined s' "price" Sample.upTo30
          = negb (isRefined Sample.atLeast10 "price" Sample.upTo30).
Proof.
  apply (refine_flips_isRefined
           Sample.atLeast10 "price" Sample.catalog "<= 30" Sample.upTo30).
  - reflexivity.
  - right. discriminate.
  - intros lo hi Hlo. discriminate Hlo.
Defined.

(** X4. After a click on an option without bounds, [isRefined] holds of
    the options without bounds and of no other option: every bounded
    option of the list is shown unselected. *)
Theorem refine_reset_unselects_bounded s a options fv o :
  find options fv = Some o →
  start o = None → end_ o = None →
  ∃ s', refine s a options fv = Ok s'
        ∧ ∀ o', isRefined s' a o' = true ↔ start o' = None ∧ end_ o' = None.
Proof.
  intros Hfind Hlo Hhi. exists (clearRefinements s a). split.
  - unfold refine. by rewrite Hfind, Hlo, Hhi.
  - intros o'. rewrite (isRefined_empty _ a o' (get_clear s a)).
    rewrite andb_true_iff, !bool_decide_eq_true. done.
Qed.

Lemma refine_reset_unselects_bounded_witness :
  ∃ s', refine Sample.exactly5AtLeast10 "price" Sample.catalog "All" = Ok s'
        ∧ ∀ o', isRefined s' "price" o' = true
                ↔ start o' = None ∧ end_ o' = None.
Proof.
  apply (refine_reset_unselects_bounded
           Sample.exactly5AtLeast10 "price" Sample.catalog "All" Sample.all);
    reflexivity.
Defined.

(** *** What a toggle leaves alone *)

Lemma sameElsewhere_refl a s : sameElsewhere a s s.
Proof. done. Qed.

Lemma sameElsewhere_trans a s1 s2 s3 :
  sameElsewhere a s1 s2 → sameElsewhere a s2 s3 → sameElsewhere a s1 s3.
Proof.
  intros (H1 & H2 & H3) (H1' & H2' & H3'). split; [| split; congruence].
  intros other Hne. by rewrite H1', H1.
Qed.

Lemma sameElsewhere_clear a s : sameElsewhere a s (clearRefinements s a).
Proof.
  split; [| done]. intros other Hne. simpl. by rewrite lookup_delete_ne.
Qed.

Lemma sameElsewhere_add a s op v :
  sameElsewhere a s (addNumericRefinement s a op v).
Proof.
  unfold addNumericRefinement.
  destruct (isNumericRefined s a op v); [done |].
  split; [| done]. intros other Hne. simpl. by rewrite lookup_insert_ne.
Qed.

Lemma sameElsewhere_remove a s op v :
  sameElsewhere a s (removeNumericRefinement s a op v).
Proof.
  unfold removeNumericRefinement.
  destruct (isNumericRefined s a op v); simpl; [| done].
  split; [| done]. intros other Hne. simpl.
  match goal with |- context [decide (?m = ∅)] =>
    destruct (decide (m = ∅)) end.
  - by rewrite lookup_delete_ne.
  - by rewrite lookup_insert_ne.
Qed.

Ltac frame :=
  repeat first
    [ apply sameElsewhere_refl
    | eapply sameElsewhere_trans;
      [| first [ apply sameElsewhere_add | apply sameElsewhere_remove
               | apply sameElsewhere_clear ] ] ].

Lemma refine_sameElsewhere s a options fv s' :
  refine s a options fv = Ok s' → sameElsewhere a s s'.
Proof.
  intros Hrefine. unfold refine in Hrefine.
  destruct (find options fv) as [o|]; [| done].
  destruct (start o) as [lo|], (end_ o) as [hi|]; simpl in Hrefine.
  - destruct (lo >? hi); [done |].
    destruct (lo =? hi);
      repeat match type of Hrefine with
             | context [if ?b then _ else _] => destruct b
             end;
      injection Hrefine as <-; frame.
  - repeat match type of Hrefine with
           | context [if ?b then _ else _] => destruct b
           end;
      injection Hrefine as <-; frame.
  - repeat match type of Hrefine with
           | context [if ?b then _ else _] => destruct b
           end;
      injection Hrefine as <-; frame.
  - injection Hrefine as <-. frame.
Qed.

(** X5. A state returned by [refine] differs from the incoming state at
    most in the numeric refinements of the attribute of the widget: the
    refinements of every other attribute, the page and the hierarchical
    facets are those of the incoming state. *)
Theorem refine_same_elsewhere s a options fv s' :
  refine s a options fv = Ok s' →
  (∀ other, other ≠ a →
     getNumericRefinements s' other = getNumericRefinements s other)
  ∧ hierarchicalFacets s' = hierarchicalFacets s
  ∧ page s' = page s.
Proof.
  intros Hrefine.
  destruct (refine_sameElsewhere s a options fv s' Hrefine)
    as (Hnr & Hhf & Hpage).
  split; [| done].
  intros other Hne. unfold getNumericRefinements. by rewrite Hnr.
Qed.

Lemma refine_same_elsewhere_witness :
  (∀ other, other ≠ "price" →
     getNumericRefinements
       (addNumericRefinement (clearRefinements Sample.atLeast10 "price")
          "price" "=" 5) other
     = getNumericRefinements Sample.atLeast10 other)
  ∧ hierarchicalFacets
      (addNumericRefinement (clearRefinements Sample.atLeast10 "price")
         "price" "=" 5)
    = hierarchicalFacets Sample.atLeast10
  ∧ page (addNumericRefinement (clearRefinements Sample.atLeast10 "price")
            "price" "=" 5)
    = page Sample.atLeast10.
Proof.
  apply (refine_same_elsewhere Sample.atLeast10 "price" Sample.catalog "5").
  reflexivity.
Defined.

(** X6. [refine] uses the first option that bears the name: what comes
    after it in the catalog, another option of the same name included,
    and what comes before it under other names, has no effect. *)
Theorem refine_first_match s a pre o post :
  (∀ o', In o' pre → name o' ≠ name o) →
  refine s a (pre ++ o :: post) (name o) = refine s a [o] (name o).
Proof.
  intros Hpre.
  assert (find (pre ++ o :: post) (name o) = Some o) as Hfind.
  { unfold find. induction pre as [|o' pre IH]; simpl.
    - by rewrite String.eqb_refl.
    - destruct (String.eqb_spec (name o') (name o)) as [Heq | _].
      + exfalso. apply (Hpre o'); [by left | done].
      + apply IH. intros o'' Hin. apply Hpre. by right. }
  assert (find [o] (name o) = Some o) as Hone.
  { unfold find. simpl. by rewrite String.eqb_refl. }
  unfold refine. by rewrite Hfind, Hone.
Qed.

Lemma refine_first_match_witness :
  refine Sample.atLeast10 "price"
    ([Sample.all; Sample.exactly5] ++ Sample.from20to30
       :: [Sample.upTo30; Sample.from50to10])
    (name Sample.from20to30)
  = refine Sample.atLeast10 "price" [Sample.from20to30]
      (name Sample.from20to30).
Proof.
  apply (refine_first_match Sample.atLeast10 "price"
           [Sample.all; Sample.exactly5] Sample.from20to30
           [Sample.upTo30; Sample.from50to10]).
  intros o' Hin. simpl in Hin.
  destruct Hin as [<- | [<- | []]]; discriminate.
Defined.

(** X7. The two closures of the widget agree: when [refine] returns a
    state for the name, the toggle closure installs that state in the
    helper and triggers one search, and the URL closure, given the state
    of the helper, yields the URL of that same state; when [refine]
    raises, both raise the same exception and the helper is untouched. *)
Theorem toggle_and_url_agree (wp : WidgetParams)
    (createURL : SearchParameters.t → string) (helper : Helper.t) fv :
  match refine (Helper.state helper) (attributeName wp) (options wp) fv with
  | Ok refined =>
      toggleRefinement_closure wp fv helper
      = ({| Helper.state := refined;
            Helper.searches := S (Helper.searches helper) |}, Ok tt)
      ∧ createURL_closure wp createURL (Helper.state helper) fv
        = Ok (createURL refined)
  | Throw e =>
      toggleRefinement_closure wp fv helper = (helper, Throw e)
      ∧ createURL_closure wp createURL (Helper.state helper) fv = Throw e
  end.
Proof.
  unfold toggleRefinement_closure, createURL_closure, bind, get, lift, modify.
  simpl.
  by destruct (refine (Helper.state helper) (attributeName wp) (options wp) fv).
Qed.

(** X8. Selecting an option that stands for one refinement (a point, a
    lower bound alone, an upper bound alone) and is not refined returns a
    state whose refinements for the attribute are that refinement and
    nothing else. *)
Theorem refine_selects_single s a options fv o op v :
  find options fv = Some o →
  constraints o = [(op, v)] →
  isRefined s a o = false →
  ∃ s', refine s a options fv = Ok s'
        ∧ getNumericRefinements s' a = {[ op := {[ v ]} ]}.
Proof.
  intros Hfind Hone Hnot.
  destruct (refine_single s a options fv o op v Hfind Hone) as [His ->].
  rewrite His in Hnot. rewrite Hnot.
  eexists. split; [reflexivity |].
  unfold getNumericRefinements. by rewrite nr_add_clear, lookup_insert_eq.
Qed.

Lemma refine_selects_single_witness :
  ∃ s', refine Sample.atLeast10 "price" Sample.catalog "<= 30" = Ok s'
        ∧ getNumericRefinements s' "price" = {[ "<=" := {[ 30 ]} ]}.
Proof.
  apply (refine_selects_single
           Sample.atLeast10 "price" Sample.catalog "<= 30" Sample.upTo30);
    reflexivity.
Defined.

(** X9. Selecting an option with [start < end] on a state that does not
    hold [>= start] returns a state whose refinements for the attribute
    are [>= start] and [<= end], unless the incoming state already held
    [<= end]: then [>= start] alone is left. *)
Theorem refine_selects_range s a options fv o lo hi :
  find options fv = Some o →
  start o = Some lo → end_ o = Some hi → lo < hi →
  hasNumericRefinement (getNumericRefinements s a) ">=" lo = false →
  ∃ s', refine s a options fv = Ok s'
        ∧ getNumericRefinements s' a
          = if hasNumericRefinement (getNumericRefinements s a) "<=" hi
            then {[ ">=" := {[ lo ]} ]}
            else {[ ">=" := {[ lo ]}; "<=" := {[ hi ]} ]}.
Proof.
  intros Hfind Hlo Hhi Hlt Hge.
  rewrite (refine_range s a options fv o lo hi) by done.
  simpl. rewrite Hge. simpl.
  eexists. split; [reflexivity |].
  assert (getNumericRefinements
            (addNumericRefinement (clearRefinements s a) a ">=" lo) a
          = {[ ">=" := {[ lo ]} ]}) as Hcur.
  { unfold getNumericRefinements. by rewrite nr_add_clear, lookup_insert_eq. }
  assert (hasNumericRefinement ({[ ">=" := {[ lo ]} ]}) "<=" hi = false)
    as Hle.
  { apply not_true_is_false. rewrite has_iff.
    intros (vs & Hvs & _). by rewrite lookup_singleton_ne in Hvs. }
  destruct (hasNumericRefinement (getNumericRefinements s a) "<=" hi).
  - unfold removeNumericRefinement.
    by rewrite isNumericRefined_has, Hcur, Hle.
  - rewrite get_add_absent by (by rewrite Hcur).
    rewrite Hcur, lookup_singleton_ne by done. simpl.
    rewrite (left_id_L ∅ (∪)).
    rewrite <- insert_empty, insert_insert_ne by done.
    by rewrite insert_empty.
Qed.

Lemma refine_selects_range_witness :
  ∃ s', refine Sample.atMost30 "price" Sample.catalog "20 - 30" = Ok s'
        ∧ getNumericRefinements s' "price"
          = if hasNumericRefinement
                 (getNumericRefinements Sample.atMost30 "price") "<=" 30
            then {[ ">=" := {[ 20 ]} ]}
            else {[ ">=" := {[ 20 ]}; "<=" := {[ 30 ]} ]}.
Proof.
  apply (refine_selects_range
           Sample.atMost30 "price" Sample.catalog "20 - 30"
           Sample.from20to30 20 30);
    [reflexivity | reflexivity | reflexivity | lia | reflexivity].
Defined.

Lemma pair_differs (op op' : string) (v v' : Z) :
  (op', v') ≠ (op, v) ↔ op ≠ op' ∨ v ≠ v'.
Proof.
  split.
  - intros Hd. destruct (decide (op = op')) as [-> |]; [| by left].
    right. intros ->. by apply Hd.
  - intros Hd [= -> ->]. by destruct Hd.
Qed.

(** X10. Unselecting a refined option that stands for one refinement
    removes that refinement and keeps every other refinement of the
    attribute, other operators and other values included. *)
Theorem refine_unselects_single s a options fv o op v :
  find options fv = Some o →
  constraints o = [(op, v)] →
  isRefined s a o = true →
  ∃ s', refine s a options fv = Ok s'
        ∧ ∀ op' v',
            hasNumericRefinement (getNumericRefinements s' a) op' v' = true
            ↔ hasNumericRefinement (getNumericRefinements s a) op' v' = true
              ∧ (op', v') ≠ (op, v).
Proof.
  intros Hfind Hone His.
  destruct (refine_single s a options fv o op v Hfind Hone) as [Heq ->].
  rewrite Heq in His. rewrite His.
  eexists. split; [reflexivity |].
  intros op' v'. rewrite has_remove.
  rewrite andb_true_iff, negb_true_iff, andb_false_iff,
    !bool_decide_eq_false.
  split; intros [Hin Hd]; (split; [done |]).
  - intros [= -> ->]. by destruct Hd.
  - destruct (decide (op = op')) as [-> |]; [| by left].
    right. intros ->. by apply Hd.
Qed.

Lemma refine_unselects_single_witness :
  ∃ s', refine Sample.exactly5AtLeast10 "price" Sample.catalog "5" = Ok s'
        ∧ ∀ op' v',
            hasNumericRefinement (getNumericRefinements s' "price") op' v'
            = true
            ↔ hasNumericRefinement
                (getNumericRefinements Sample.exactly5AtLeast10 "price")
                op' v' = true
              ∧ (op', v') ≠ ("=", 5).
Proof.
  apply (refine_unselects_single
           Sample.exactly5AtLeast10 "price" Sample.catalog "5"
           Sample.exactly5);
    reflexivity.
Defined.

(** X11. Toggling an option with [start < end] on a state that holds
    [>= start] removes [>= start], flips the presence of [<= end] and
    keeps every other refinement of the attribute. *)
Theorem refine_unselects_range s a options fv o lo hi :
  find options fv = Some o →
  start o = Some lo → end_ o = Some hi → lo < hi →
  hasNumericRefinement (getNumericRefinements s a) ">=" lo = true →
  ∃ s', refine s a options fv = Ok s'
        ∧ ∀ op v,
            hasNumericRefinement (getNumericRefinements s' a) op v = true
            ↔ ((op, v) = ("<=", hi)
               ∧ hasNumericRefinement (getNumericRefinements s a) "<=" hi
                 = false)
              ∨ (hasNumericRefinement (getNumericRefinements s a) op v = true
                 ∧ (op, v) ≠ (">=", lo) ∧ (op, v) ≠ ("<=", hi)).
Proof.
  intros Hfind Hlo Hhi Hlt Hge.
  rewrite (refine_range s a options fv o lo hi) by done.
  simpl. rewrite Hge. simpl.
  eexists. split; [reflexivity |].
  intros op v.
  destruct (hasNumericRefinement (getNumericRefinements s a) "<=" hi) eqn:Hle;
    rewrite ?has_add, ?has_remove, ?has_remove;
    rewrite ?orb_true_iff, ?andb_true_iff, ?negb_true_iff, ?andb_false_iff,
      ?bool_decide_eq_true, ?bool_decide_eq_false, !pair_differs;
    destruct (decide (op = "<=")) as [-> |];
    destruct (decide (v = hi)) as [-> |];
    naive_solver congruence.
Qed.

Lemma refine_unselects_range_witness :
  ∃ s', refine Sample.atLeast10 "price"
          [ {| name := "10 - 40"; start := Some 10; end_ := Some 40 |} ]
          "10 - 40" = Ok s'
        ∧ ∀ op v,
            hasNumericRefinement (getNumericRefinements s' "price") op v = true
            ↔ ((op, v) = ("<=", 40)
               ∧ hasNumericRefinement
                   (getNumericRefinements Sample.atLeast10 "price") "<=" 40
                 = false)
              ∨ (hasNumericRefinement
                   (getNumericRefinements Sample.atLeast10 "price") op v = true
                 ∧ (op, v) ≠ (">=", 10) ∧ (op, v) ≠ ("<=", 40)).
Proof.
  apply (refine_unselects_range
           Sample.atLeast10 "price"
           [ {| name := "10 - 40"; start := Some 10; end_ := Some 40 |} ]
           "10 - 40"
           {| name := "10 - 40"; start := Some 10; end_ := Some 40 |} 10 40);
    [reflexivity | reflexivity | reflexivity | lia | reflexivity].
Defined.

(** X25. The option without bounds absorbs what was toggled before it:
    selecting it after any toggle that returned a state gives the state
    that selecting it at once gives. *)
Theorem refine_reset_absorbs s a options fv s1 reset o :
  refine s a options fv = Ok s1 →
  find options reset = Some o →
  start o = None → end_ o = None →
  refine s1 a options reset = refine s a options reset
  ∧ ∃ cleared, refine s a options reset = Ok cleared
               ∧ getNumericRefinements cleared a = ∅.
Proof.
  intros Hrefine Hfind Hlo Hhi.
  assert (∀ s0, refine s0 a options reset = Ok (clearRefinements s0 a))
    as Hreset.
  { intros s0. unfold refine. by rewrite Hfind, Hlo, Hhi. }
  rewrite !Hreset. split.
  - f_equal.
    destruct (refine_sameElsewhere s a options fv s1 Hrefine)
      as (Hnr & Hhf & Hpage).
    apply state_ext; simpl; [| done | done].
    apply map_eq. intros other.
    destruct (decide (other = a)) as [-> | Hne].
    + by rewrite !lookup_delete_eq.
    + rewrite !lookup_delete_ne by done. by apply Hnr.
  - eexists. split; [reflexivity | apply get_clear].
Qed.

Lemma refine_reset_absorbs_witness :
  refine (addNumericRefinement (clearRefinements Sample.atLeast10 "price")
            "price" "=" 5) "price" Sample.catalog "All"
  = refine Sample.atLeast10 "price" Sample.catalog "All"
  ∧ ∃ cleared,
      refine Sample.atLeast10 "price" Sample.catalog "All" = Ok cleared
      ∧ getNumericRefinements cleared "price" = ∅.
Proof.
  apply (refine_reset_absorbs Sample.atLeast10 "price" Sample.catalog "5"
           (addNumericRefinement (clearRefinements Sample.atLeast10 "price")
              "price" "=" 5) "All" Sample.all);
    reflexivity.
Defined.

(** X26. An option with a lower bound alone and an option with the same
    lower bound and a different upper bound are always flagged alike:
    [isRefined] cannot tell them apart on any state. *)
Theorem isRefined_same_start s a o1 o2 lo hi :
  start o1 = Some lo → end_ o1 = None →
  start o2 = Some lo → end_ o2 = Some hi → lo ≠ hi →
  isRefined s a o1 = isRefined s a o2.
Proof.
  intros Hlo1 Hhi1 Hlo2 Hhi2 Hne.
  rewrite (isRefined_range s a o2 lo hi) by done.
  unfold isRefined. by rewrite Hlo1, Hhi1.
Qed.

Lemma isRefined_same_start_witness :
  isRefined Sample.atLeast10 "price"
    {| name := ">= 10"; start := Some 10; end_ := None |}
  = isRefined Sample.atLeast10 "price"
      {| name := "10 - 40"; start := Some 10; end_ := Some 40 |}.
Proof.
  apply (isRefined_same_start Sample.atLeast10 "price"
           {| name := ">= 10"; start := Some 10; end_ := None |}
           {| name := "10 - 40"; start := Some 10; end_ := Some 40 |} 10 40);
    [reflexivity | reflexivity | reflexivity | reflexivity | lia].
Defined.

End NumericRefinementListMore.

(** ** connectPagination and the lifecycle of the widgets *)

Section LifecycleFacts.
Import Connector.

Context {InstantSearch : Type}.





(** X14. [render] on a widget that [init] never ran on: the pagination
    and the numeric refinement list raise a [TypeError] on the call of
    the URL closure they do not have yet, and do not invoke the render
    callback. *)
Theorem render_before_init_throws :
  (∀ (wp : Pagination.WidgetParams)
     (o : Pagination.RenderOptions (InstantSearch := InstantSearch)),
     Pagination.render wp o (fresh Pagination.uninitialised)
     = (fresh Pagination.uninitialised,
        Throw (TypeError "this.createURL is not a function")))
  ∧ (∀ (wp : NumericRefinementList.WidgetParams)
       (o : NumericRefinementList.RenderOptions
              (InstantSearch := InstantSearch)),
     NumericRefinementList.render wp o
       (fresh NumericRefinementList.uninitialised)
     = (fresh NumericRefinementList.uninitialised,
        Throw (TypeError "this._createURL is not a function"))).
Proof. split; intros wp o; reflexivity. Qed.

(** X15. The number of pages the pagination reports is never above the
    number of pages of the results, never above [maxPages] when it is
    given, and it is the number of pages of the results when [maxPages]
    is not given or is not below it. *)
Theorem getMaxPage_bounds (wp : Pagination.WidgetParams)
    (results : SearchResults.t) :
  Pagination.getMaxPage wp results ≤ SearchResults.nbPages results
  ∧ (∀ m, Pagination.maxPages wp = Some m →
          Pagination.getMaxPage wp results ≤ m)
  ∧ (Pagination.maxPages wp = None
     ∨ (∃ m, Pagination.maxPages wp = Some m
             ∧ SearchResults.nbPages results ≤ m) →
     Pagination.getMaxPage wp results = SearchResults.nbPages results).
Proof.
  unfold Pagination.getMaxPage.
  destruct (Pagination.maxPages wp) as [m|].
  - split; [lia |]. split.
    + intros m' [= <-]. lia.
    + intros [? | (m' & [= <-] & Hle)]; [done | lia].
  - split; [lia |]. split; [done | done].
Qed.

End LifecycleFacts.

Lemma getMaxPage_bounds_witness :
  Pagination.getMaxPage Sample.paginationParams Sample.results ≤ 3
  ∧ Pagination.getMaxPage Sample.paginationParams Sample.results ≤ 2.
Proof.
  destruct (getMaxPage_bounds Sample.paginationParams Sample.results)
    as (Hpages & Hmax & _).
  split; [exact Hpages | apply (Hmax 2); reflexivity].
Defined.

(** ** connectBreadcrumb: further properties *)

Section BreadcrumbMore.
Import SearchResults Breadcrumb Connector.

Context {InstantSearch : Type}.

Lemma flatten_nil_iff children :
  flatten children = [] ↔ Forall (λ c, isRefined c = false) children.
Proof.
  split; [| apply flatten_none_refined].
  induction children as [|c children IH]; [constructor |].
  rewrite flatten_cons. intros Hnil.
  apply app_eq_nil in Hnil as [Hc Hrest].
  constructor; [| by apply IH].
  by destruct (isRefined c).
Qed.

(** X16. On a node that has an array of children, [prepareItems] never
    raises and returns the traversal of the refined path: for each child
    in order, nothing when the child is not refined, whatever lies below
    it; otherwise its item, then at once the items of its own children
    when it has an array of them. *)
Theorem prepareItems_on_children_array node children :
  data node = Some children →
  prepareItems node = Ok (flatten children)
  ∧ match children with
    | [] => flatten children = []
    | child :: rest =>
        flatten children
        = (if isRefined child then
             {| item_name := name child; item_value := path child |}
             :: match data child with
                | Some nested => flatten nested
                | None => []
                end
           else [])
          ++ flatten rest
    end.
Proof.
  intros Hdata. split; [by apply prepareItems_flatten |].
  destruct children as [|child rest]; [done | apply flatten_cons].
Qed.

Lemma prepareItems_on_children_array_witness :
  prepareItems Sample.tree
  = Ok [ {| item_name := "Cameras"; item_value := Some "Cameras" |};
         {| item_name := "Digital"; item_value := Some "Cameras > Digital" |} ].
Proof.
  destruct (prepareItems_on_children_array Sample.tree
              (default [] (data Sample.tree)) eq_refl) as [Hitems _].
  exact Hitems.
Defined.

(** X17. On a node that has an array of children, [prepareItems] returns
    the empty sequence exactly when none of these children is refined. *)
Theorem prepareItems_empty_iff node children :
  data node = Some children →
  prepareItems node = Ok [] ↔ Forall (λ c, isRefined c = false) children.
Proof.
  intros Hdata. rewrite (prepareItems_flatten node children Hdata).
  rewrite <- flatten_nil_iff. split; [by intros [= ->] | by intros ->].
Qed.

Lemma prepareItems_empty_iff_witness :
  prepareItems Sample.tree = Ok []
  ↔ Forall (λ c, isRefined c = false) (default [] (data Sample.tree)).
Proof.
  apply (prepareItems_empty_iff Sample.tree (default [] (data Sample.tree))).
  reflexivity.
Defined.

(** *** [getConfiguration] *)

Lemma find_first {A} (test : A → bool) pre x post :
  (∀ y, In y pre → test y = false) → test x = true →
  List.find test (pre ++ x :: post) = Some x.
Proof.
  intros Hpre Hx. induction pre as [|y pre IH]; simpl.
  - by rewrite Hx.
  - rewrite (Hpre y) by (by left). apply IH. intros z Hz. apply Hpre. by right.
Qed.

Lemma find_absent {A} (test : A → bool) l :
  (∀ y, In y l → test y = false) → List.find test l = None.
Proof.
  intros Hl. destruct (List.find test l) as [x|] eqn:Hfind; [| done].
  apply find_some in Hfind as [Hin Hx]. rewrite (Hl x Hin) in Hx. done.
Qed.

(** X18. [getConfiguration] never raises.  When the current
    configuration holds an entry under the name of the facet of the
    widget, it returns the empty configuration; otherwise it leaves the
    console alone and returns one entry: the attributes of the widget,
    its first attribute as name, its separator ([" > "] when none is
    given) and its root path. *)
Theorem getConfiguration_declares_unless_present (wp : WidgetParams)
    (current : Configuration) console :
  ((∃ facets entry,
      cfg_hierarchicalFacets current = Some facets ∧ In entry facets
      ∧ fc_name entry = hierarchicalFacetName wp) →
   ∃ console',
     getConfiguration wp current console
     = (console', Ok {| cfg_hierarchicalFacets := None |}))
  ∧ (¬ (∃ facets entry,
          cfg_hierarchicalFacets current = Some facets ∧ In entry facets
          ∧ fc_name entry = hierarchicalFacetName wp) →
     getConfiguration wp current console
     = (console,
        Ok {| cfg_hierarchicalFacets :=
                Some [ {| fc_attributes := attributes wp;
                          fc_name := head (attributes wp);
                          fc_separator :=
                            Some (default " > " (separator wp));
                          fc_rootPath := rootPath wp |} ] |})).
Proof.
  unfold getConfiguration.
  destruct (cfg_hierarchicalFacets current) as [facets|].
  - destruct (List.find _ facets) as [facetSet|] eqn:Hfind.
    + split.
      * intros _. unfold bind, console_warn, modify, ret.
        destruct (_ || _); eauto.
      * intros Hno. exfalso. apply Hno. exists facets, facetSet.
        apply find_some in Hfind as [Hin Hname].
        apply bool_decide_eq_true in Hname. done.
    + split; [| done].
      intros (facets' & entry & [= <-] & Hin & Hname).
      apply (List.find_none _ _ Hfind) in Hin.
      apply bool_decide_eq_false in Hin. done.
  - split; [| done]. intros (facets & entry & ? & _). done.
Qed.

Lemma getConfiguration_declares_unless_present_witness :
  (∃ console',
     getConfiguration Sample.breadcrumbParams Sample.menuConfiguration []
     = (console', Ok {| cfg_hierarchicalFacets := None |}))
  ∧ getConfiguration Sample.breadcrumbParams
      {| cfg_hierarchicalFacets := None |} []
    = ([],
       Ok {| cfg_hierarchicalFacets :=
               Some [ {| fc_attributes := ["categories"];
                         fc_name := Some "categories";
                         fc_separator := Some " > ";
                         fc_rootPath := None |} ] |}).
Proof.
  split.
  - apply (getConfiguration_declares_unless_present
             Sample.breadcrumbParams Sample.menuConfiguration []).
    eexists _, _. split; [reflexivity |].
    split; [right; left; reflexivity | reflexivity].
  - apply (getConfiguration_declares_unless_present
             Sample.breadcrumbParams {| cfg_hierarchicalFacets := None |} []).
    intros (facets & entry & Hnone & _). discriminate Hnone.
Defined.

(** X19. [getConfiguration] compares the widget with the first entry
    that bears the name of its facet, and with no other: it writes one
    warning on the console when that entry has other attributes or
    another separator than the widget, and nothing when both agree. *)
Theorem getConfiguration_warns_on_first_match (wp : WidgetParams)
    (current : Configuration) console pre facetSet post :
  cfg_hierarchicalFacets current = Some (pre ++ facetSet :: post) →
  (∀ entry, In entry pre → fc_name entry ≠ hierarchicalFacetName wp) →
  fc_name facetSet = hierarchicalFacetName wp →
  getConfiguration wp current console
  = (if decide (fc_attributes facetSet = attributes wp
                ∧ fc_separator facetSet = Some (default " > " (separator wp)))
     then console
     else console ++ [differentOptions],
     Ok {| cfg_hierarchicalFacets := None |}).
Proof.
  intros Hcur Hpre Hname. unfold getConfiguration. rewrite Hcur.
  rewrite (find_first _ pre facetSet post).
  - unfold bind, console_warn, modify, ret, separatorOrDefault.
    destruct (decide (fc_attributes facetSet = attributes wp
                      ∧ fc_separator facetSet
                        = Some (default " > " (separator wp))))
      as [[Ha Hs] | Hdiff].
    + by rewrite !bool_decide_true by done.
    + destruct (decide (fc_attributes facetSet = attributes wp)) as [Ha | Ha].
      * rewrite (bool_decide_true _ Ha).
        rewrite bool_decide_false by (intros Hs; by apply Hdiff). done.
      * by rewrite (bool_decide_false _ Ha).
  - intros entry Hin. apply bool_decide_eq_false. by apply Hpre.
  - by apply bool_decide_eq_true.
Qed.

Lemma getConfiguration_warns_on_first_match_witness :
  getConfiguration Sample.breadcrumbParams Sample.menuConfiguration []
  = ([differentOptions], Ok {| cfg_hierarchicalFacets := None |}).
Proof.
  apply (getConfiguration_warns_on_first_match
           Sample.breadcrumbParams Sample.menuConfiguration []
           [ {| fc_attributes := ["brand"]; fc_name := Some "brand";
                fc_separator := Some " > "; fc_rootPath := None |} ]
           {| fc_attributes := ["categories"]; fc_name := Some "categories";
              fc_separator := Some " / "; fc_rootPath := None |}
           []).
  - reflexivity.
  - intros entry [<- | []]. discriminate.
  - reflexivity.
Defined.

(** X20. Declaring twice is harmless: on a configuration that holds the
    entry the widget itself declares, after entries under other names,
    [getConfiguration] returns the empty configuration and writes no
    warning. *)
Theorem getConfiguration_own_entry_is_silent (wp : WidgetParams)
    facets post console :
  (∀ entry, In entry facets → fc_name entry ≠ hierarchicalFacetName wp) →
  getConfiguration wp
    {| cfg_hierarchicalFacets := Some (facets ++ ownFacet wp :: post) |}
    console
  = (console, Ok {| cfg_hierarchicalFacets := None |}).
Proof.
  intros Hfacets. unfold getConfiguration. simpl.
  rewrite (find_first _ facets (ownFacet wp) post).
  - unfold bind, console_warn, modify, ret. simpl.
    by rewrite !bool_decide_true by done.
  - intros entry Hin. apply bool_decide_eq_false. by apply Hfacets.
  - by apply bool_decide_eq_true.
Qed.

Lemma getConfiguration_own_entry_is_silent_witness :
  getConfiguration Sample.breadcrumbParams
    {| cfg_hierarchicalFacets :=
         Some ([ {| fc_attributes := ["brand"]; fc_name := Some "brand";
                    fc_separator := Some " > "; fc_rootPath := None |} ]
               ++ ownFacet Sample.breadcrumbParams :: []) |}
    []
  = ([], Ok {| cfg_hierarchicalFacets := None |}).
Proof.
  apply (getConfiguration_own_entry_is_silent Sample.breadcrumbParams
           [ {| fc_attributes := ["brand"]; fc_name := Some "brand";
                fc_separator := Some " > "; fc_rootPath := None |} ] [] []).
  intros entry [<- | []]. discriminate.
Defined.

(** *** The closures and [render] *)

(** X21. The two closures of the breadcrumb act on the same facet value:
    the value they are given or, when they are given none, the first
    element of the refined path of the facet.  With that value the URL
    closure yields the URL of the state returned by the toggle method
    of the state, and the refine closure calls the toggle method of the
    helper and triggers one search.  Called without a value on an empty
    refined path, the URL closure yields [undefined] and the refine
    closure leaves the helper as it is and triggers no search. *)
Theorem breadcrumb_closures_same_target (wp : WidgetParams)
    (breadcrumbOf : Helper.t → option string → list string)
    (toggle : SearchParameters.t → option string → string
              → SearchParameters.t)
    (helperToggle : Helper.t → option string → string → Helper.t)
    (createURL : SearchParameters.t → string) facetValue (helper : Helper.t) :
  match (if falsy facetValue
         then head (breadcrumbOf helper (hierarchicalFacetName wp))
         else facetValue) with
  | Some value =>
      createURL_closure wp breadcrumbOf toggle createURL facetValue helper
      = Some (createURL
                (toggle (Helper.state helper) (hierarchicalFacetName wp)
                   value))
      ∧ refine_closure wp breadcrumbOf helperToggle facetValue helper
        = (Helper.search
             (helperToggle helper (hierarchicalFacetName wp) value), Ok tt)
  | None =>
      createURL_closure wp breadcrumbOf toggle createURL facetValue helper
      = None
      ∧ refine_closure wp breadcrumbOf helperToggle facetValue helper
        = (helper, Ok tt)
  end.
Proof.
  unfold createURL_closure, refine_closure.
  destruct (falsy facetValue) eqn:Hfalsy.
  - unfold bind, get. simpl.
    by destruct (breadcrumbOf helper (hierarchicalFacetName wp))
      as [|first rest].
  - destruct facetValue as [value|]; [| done]. done.
Qed.

Lemma flatten_nonempty_iff children :
  (0 < length (flatten children))%nat
  ↔ Exists (λ c, isRefined c = true) children.
Proof.
  induction children as [|c children IH].
  - rewrite Exists_nil. simpl. lia.
  - rewrite flatten_cons, length_app, Exists_cons.
    destruct (isRefined c); simpl.
    + split; [by left | lia].
    + rewrite IH. split; [by right | by intros [? | ?]].
Qed.

(** X22. [render] on a state whose first hierarchical facet is known to
    the results with an array of children invokes the render callback
    once, with [isFirstRendering = false], the refined path of that facet
    as items, [canRefine] telling whether one of these children is
    refined, the closures stored on the widget and the parameters of the
    widget unchanged. *)
Theorem breadcrumb_render_reports (wp : WidgetParams)
    (o : RenderOptions (InstantSearch := InstantSearch)) w
    facet others root children :
  SearchParameters.hierarchicalFacets (rd_state o) = Some (facet :: others) →
  getFacetValues (rd_results o) (SearchParameters.hf_name facet) = Some root →
  data root = Some children →
  ∃ payload,
    render wp o w
    = ({| this := this w; calls := calls w ++ [(payload, false)] |}, Ok tt)
    ∧ items payload = flatten children
    ∧ (canRefine payload = true ↔ Exists (λ c, isRefined c = true) children)
    ∧ createURL payload = _createURL (this w)
    ∧ refine payload = _refine (this w)
    ∧ ro_widgetParams payload = wp.
Proof.
  intros Hfacets Hroot Hdata. unfold render. rewrite Hfacets, Hroot.
  unfold bind, lift, get, renderFn, modify.
  rewrite (prepareItems_flatten root children Hdata).
  eexists. split; [reflexivity |].
  cbn [items canRefine createURL refine ro_widgetParams].
  split; [done |]. split; [| done].
  rewrite Nat.ltb_lt. apply flatten_nonempty_iff.
Qed.

(** X23. [render] on a configured state raises a [TypeError] and does not
    invoke the render callback when the results do not know the first
    hierarchical facet of the state, and when they hold for it a root
    without an array of children. *)
Theorem breadcrumb_render_without_values_throws (wp : WidgetParams)
    (o : RenderOptions (InstantSearch := InstantSearch)) w facet others :
  SearchParameters.hierarchicalFacets (rd_state o) = Some (facet :: others) →
  (getFacetValues (rd_results o) (SearchParameters.hf_name facet) = None →
   render wp o w
   = (w, Throw (TypeError "Cannot read property 'data' of undefined")))
  ∧ (∀ root,
       getFacetValues (rd_results o) (SearchParameters.hf_name facet)
       = Some root →
       data root = None →
       render wp o w
       = (w, Throw (TypeError "Cannot read property 'reduce' of null"))).
Proof.
  intros Hfacets. unfold render. rewrite Hfacets. split.
  - by intros ->.
  - intros [n p r d] -> Hdata. simpl in Hdata. by subst d.
Qed.

(** X24. [render] takes the name of the facet from the first
    hierarchical facet of the state and never from the attributes of the
    widget: two breadcrumbs with different parameters, given the same
    state and results, complete alike and report the same items and the
    same [canRefine]. *)
Theorem breadcrumb_render_ignores_attributes (wp1 wp2 : WidgetParams)
    (o : RenderOptions (InstantSearch := InstantSearch)) w :
  snd (render wp1 o w) = snd (render wp2 o w)
  ∧ map (λ call, (items (fst call), canRefine (fst call), snd call))
        (calls (fst (render wp1 o w)))
    = map (λ call, (items (fst call), canRefine (fst call), snd call))
          (calls (fst (render wp2 o w))).
Proof.
  unfold render.
  destruct (SearchParameters.hierarchicalFacets (rd_state o))
    as [[|facet others]|]; try done.
  unfold bind, lift, get, throw.
  destruct (getFacetValues _ _) as [root|]; [| done].
  destruct (prepareItems root); [| done].
  cbn. by rewrite !map_app.
Qed.

End BreadcrumbMore.

Section BreadcrumbWitnesses.
Import SearchResults Breadcrumb Connector.

Lemma breadcrumb_render_reports_witness :
  ∃ payload,
    render Sample.breadcrumbParams Sample.configured
      (fresh Breadcrumb.uninitialised)
    = ({| this := Breadcrumb.uninitialised; calls := [(payload, false)] |},
       Ok tt)
    ∧ items payload
      = [ {| item_name := "Cameras"; item_value := Some "Cameras" |};
          {| item_name := "Digital";
             item_value := Some "Cameras > Digital" |} ].
Proof.
  destruct (breadcrumb_render_reports
              Sample.breadcrumbParams Sample.configured
              (fresh Breadcrumb.uninitialised)
              {| SearchParameters.hf_name := "categories";
                 SearchParameters.hf_attributes := ["categories"];
                 SearchParameters.hf_separator := " > ";
                 SearchParameters.hf_rootPath := None |}
              [] Sample.tree (default [] (data Sample.tree))
              eq_refl eq_refl eq_refl)
    as (payload & Hrender & Hitems & _).
  exists payload. split; [exact Hrender | exact Hitems].
Defined.

Lemma breadcrumb_render_without_values_throws_witness :
  render Sample.breadcrumbParams
    {| rd_instantSearchInstance := tt;
       rd_results :=
         {| SearchResults.nbHits := 0; SearchResults.nbPages := 0;
            getFacetValues := fun _ => Some Sample.bareRoot |};
       rd_state := Sample.configuredState |}
    (fresh Breadcrumb.uninitialised)
  = (fresh Breadcrumb.uninitialised,
     Throw (TypeError "Cannot read property 'reduce' of null")).
Proof.
  destruct (breadcrumb_render_without_values_throws
              Sample.breadcrumbParams
              {| rd_instantSearchInstance := tt;
                 rd_results :=
                   {| SearchResults.nbHits := 0; SearchResults.nbPages := 0;
                      getFacetValues := fun _ => Some Sample.bareRoot |};
                 rd_state := Sample.configuredState |}
              (fresh Breadcrumb.uninitialised)
              {| SearchParameters.hf_name := "categories";
                 SearchParameters.hf_attributes := ["categories"];
                 SearchParameters.hf_separator := " > ";
                 SearchParameters.hf_rootPath := None |}
              [] eq_refl) as [_ Hbare].
  apply (Hbare Sample.bareRoot); reflexivity.
Defined.

End BreadcrumbWitnesses.
